(** * TutorIABUAP: the conversation state machine of [main.py]

    A shallow embedding of the Telegram tutoring bot's handlers
    ([start_command] ... [handle_text_message], [handle_callback_query]),
    of the gateway wrapper [call_gemini_api], of [generate_exercise] and of
    [send_long_message], followed by the properties of the specification
    that were checked against them. *)

From Stdlib Require Import List Bool Arith ZArith NArith QArith Lia.
From Stdlib Require Import Strings.String Strings.Ascii Numbers.DecimalString.
Import ListNotations.
Close Scope Q_scope.

Set Implicit Arguments.
#[local] Set Warnings "-register-all".

(** ** Python strings

    A Python [str] is a sequence of Unicode code points; [len] counts code
    points, not bytes, so the model keeps them as numbers. *)

Module PyStr.

Definition str := list N.

Local Open Scope N_scope.

(** Literals of this file are written as UTF-8 byte strings and decoded. *)
Definition cont (a : ascii) : N := N.land (N_of_ascii a) 63.

Fixpoint utf8 (s : string) : str :=
  match s with
  | EmptyString => []
  | String a r =>
      let b := N_of_ascii a in
      if b <? 128 then b :: utf8 r
      else if b <? 224 then
        match r with
        | String a1 r1 => (N.land b 31 * 64 + cont a1) :: utf8 r1
        | _ => []
        end
      else if b <? 240 then
        match r with
        | String a1 (String a2 r2) =>
            (N.land b 15 * 4096 + cont a1 * 64 + cont a2) :: utf8 r2
        | _ => []
        end
      else
        match r with
        | String a1 (String a2 (String a3 r3)) =>
            (N.land b 7 * 262144 + cont a1 * 4096 + cont a2 * 64 + cont a3)
              :: utf8 r3
        | _ => []
        end
  end.

(** [len(s)] *)
Definition len (s : str) : nat := List.length s.

(** [s == t] *)
Fixpoint eqb (s t : str) : bool :=
  match s, t with
  | [], [] => true
  | a :: s', b :: t' => (a =? b) && eqb s' t'
  | _, _ => false
  end.

(** The double quote and the line feed. *)
Definition dq : str := [34].
Definition LF : N := 10.
Definition nl : str := [LF].

(** [Py_UNICODE_ISSPACE]: the code points removed by [str.strip()] and
    matched by [\s] in a [str] pattern. *)
Definition isspace (c : N) : bool :=
  ((9 <=? c) && (c <=? 13)) || ((28 <=? c) && (c <=? 32))
  || (c =? 133) || (c =? 160) || (c =? 5760)
  || ((8192 <=? c) && (c <=? 8202))
  || (c =? 8232) || (c =? 8233) || (c =? 8239) || (c =? 8287)
  || (c =? 12288).

Fixpoint lstrip (s : str) : str :=
  match s with
  | c :: r => if isspace c then lstrip r else s
  | [] => []
  end.

Definition rstrip (s : str) : str := rev (lstrip (rev s)).

(** [s.strip()] *)
Definition strip (s : str) : str := rstrip (lstrip s).

(** [s.split('\n')]: never empty, [''.split('\n') == ['']]. *)
Fixpoint split_nl (s : str) : list str :=
  match s with
  | [] => [[]]
  | c :: r =>
      if c =? LF then [] :: split_nl r
      else match split_nl r with
           | l :: ls => (c :: l) :: ls
           | [] => [[c]]
           end
  end.

(** [s.startswith(p)] *)
Fixpoint startswith (p s : str) : bool :=
  match p, s with
  | [], _ => true
  | a :: p', b :: s' => (a =? b) && startswith p' s'
  | _ :: _, [] => false
  end.

(** [k in s] for two strings: [k] occurs as a contiguous run of [s]. *)
Fixpoint contains (k s : str) : bool :=
  startswith k s ||
  match s with
  | [] => false
  | _ :: r => contains k r
  end.

(** [str.lower()] on the Basic Latin and Latin-1 blocks. *)
Definition lower_latin1 (c : N) : N :=
  if ((65 <=? c) && (c <=? 90))
     || ((192 <=? c) && (c <=? 222) && negb (c =? 215))
  then c + 32 else c.

Section Lower.
(** The lowercase mapping of the code point at index [i] of [s] for code
    points from U+0100 on comes from the Unicode tables of the Python
    runtime (one code point may map to several, and capital sigma
    depends on its context). *)
Variable lower_wide : str -> nat -> str.

Fixpoint lower_from (whole : str) (i : nat) (s : str) : str :=
  match s with
  | [] => []
  | c :: r =>
      (if c <? 256 then [lower_latin1 c] else lower_wide whole i)
        ++ lower_from whole (S i) r
  end.

(** [s.lower()] *)
Definition lower (s : str) : str := lower_from s 0 s.
End Lower.

(** [str(n)] for an [int]. *)
Definition of_Z (z : Z) : str :=
  utf8 (NilZero.string_of_int (Z.to_int z)).

(** ['\n'.join(ls)] *)
Fixpoint join_nl (ls : list str) : str :=
  match ls with
  | [] => []
  | [l] => l
  | l :: r => l ++ nl ++ join_nl r
  end.

End PyStr.

Import PyStr.


(** ** Python values

    What [json.loads] can return and what the exercise dictionary holds. *)

Inductive pyfloat :=
| FNan
| FInf (negative : bool)
| FFin (q : Q).

Inductive pyval :=
| VNone
| VBool (b : bool)
| VInt (z : Z)
| VFloat (f : pyfloat)
| VStr (s : str)
| VList (l : list pyval)
| VDict (d : list (pyval * pyval)).

(** A [dict] keeps its entries in insertion order. *)
Definition dict := list (pyval * pyval).

Inductive exn :=
| TypeError
| ValueError
| KeyError
| AttributeError.

Module Py.

(** [bool(v)] *)
Definition truthy (v : pyval) : bool :=
  match v with
  | VNone => false
  | VBool b => b
  | VInt z => negb (z =? 0)%Z
  | VFloat (FFin q) => negb (Qnum q =? 0)%Z
  | VFloat _ => true
  | VStr s => match s with [] => false | _ => true end
  | VList l => match l with [] => false | _ => true end
  | VDict d => match d with [] => false | _ => true end
  end.

(** Lists and dictionaries cannot be keys. *)
Definition hashable (v : pyval) : bool :=
  match v with
  | VList _ | VDict _ => false
  | _ => true
  end.

Definition number (v : pyval) : option pyfloat :=
  match v with
  | VBool b => Some (FFin (if b then 1 else 0))
  | VInt z => Some (FFin (inject_Z z))
  | VFloat f => Some f
  | _ => None
  end.

(** Two keys name the same entry: equal strings, equal numbers ([True] is
    [1], [1.0] is [1]); the [NaN] of the [json] module is one object and so
    is found again by identity. *)
Definition key_eq (a b : pyval) : bool :=
  match a, b with
  | VNone, VNone => true
  | VStr s, VStr t => PyStr.eqb s t
  | _, _ =>
      match number a, number b with
      | Some FNan, Some FNan => true
      | Some (FInf x), Some (FInf y) => Bool.eqb x y
      | Some (FFin p), Some (FFin q) => Qeq_bool p q
      | _, _ => false
      end
  end.

(** [d.get(k)]; [None] stands for a missing key. *)
Fixpoint dict_get (k : pyval) (d : dict) : option pyval :=
  match d with
  | [] => None
  | (k', v) :: r => if key_eq k' k then Some v else dict_get k r
  end.

(** [d[k] = v] *)
Fixpoint dict_set (k v : pyval) (d : dict) : dict :=
  match d with
  | [] => [(k, v)]
  | (k', v') :: r =>
      if key_eq k' k then (k', v) :: r else (k', v') :: dict_set k v r
  end.

(** Iterating a value: the characters of a string, the elements of a list,
    the keys of a dictionary; other values are not iterable. *)
Definition items (v : pyval) : option (list pyval) :=
  match v with
  | VStr s => Some (map (fun c => VStr [c]) s)
  | VList l => Some l
  | VDict d => Some (map fst d)
  | _ => None
  end.

(** One element of the argument of [dict.update] read as a key/value pair. *)
Definition pair_of (item : pyval) : exn + (pyval * pyval) :=
  match items item with
  | None => inl TypeError
  | Some [k; v] => if hashable k then inr (k, v) else inl TypeError
  | Some _ => inl ValueError
  end.

(** [dict.update] over an iterable of pairs stops at the first bad element
    and keeps the entries written before it. *)
Fixpoint update_pairs (its : list pyval) (d : dict) : dict * option exn :=
  match its with
  | [] => (d, None)
  | it :: r =>
      match pair_of it with
      | inl e => (d, Some e)
      | inr (k, v) => update_pairs r (dict_set k v d)
      end
  end.

(** [d.update(v)]: the dictionary afterwards and the exception raised. *)
Definition dict_update (v : pyval) (d : dict) : dict * option exn :=
  match v with
  | VDict m => (fold_left (fun acc kv => dict_set (fst kv) (snd kv) acc) m d, None)
  | _ =>
      match items v with
      | None => (d, Some TypeError)
      | Some its => update_pairs its d
      end
  end.

(** [k in v] for a string [k]: a substring test on a string, membership in
    a list, key membership in a dictionary, [TypeError] otherwise. *)
Definition str_in (k : str) (v : pyval) : exn + bool :=
  match v with
  | VStr s => inr (contains k s)
  | VList l =>
      inr (existsb (fun e => match e with
                             | VStr s => PyStr.eqb s k
                             | _ => false
                             end) l)
  | VDict d => inr (match dict_get (VStr k) d with Some _ => true | None => false end)
  | _ => inl TypeError
  end.

(** [v[k]] for a string [k]. *)
Definition getitem (k : str) (v : pyval) : exn + pyval :=
  match v with
  | VDict d => match dict_get (VStr k) d with
               | Some x => inr x
               | None => inl KeyError
               end
  | _ => inl TypeError
  end.

(** [int(s)] on a run of ASCII digits. *)
Fixpoint digits (acc : Z) (s : str) : option Z :=
  match s with
  | [] => Some acc
  | c :: r =>
      if ((48 <=? c) && (c <=? 57))%N
      then digits (10 * acc + Z.of_N (c - 48)) r
      else None
  end.

End Py.

(** ** The process environment

    The module-level configuration of [main.py] and the parts of the Python
    runtime that are tables rather than code. *)

Record env := Env {
  (** [db] is a Firestore client ([true]) or [None] ([false]) *)
  db : bool;
  (** [GEMINI_API_KEY] is set *)
  GEMINI_API_KEY : bool;
  (** [FIREBASE_APP_ID] is set *)
  FIREBASE_APP_ID : bool;
  (** [str.lower()] beyond Latin-1 *)
  lower_wide : str -> nat -> str;
  (** [int(s)] when [s] is not a plain run of ASCII digits; [None] is
      [ValueError] *)
  int_other : str -> option Z;
  (** [format(v)] of a float, a list or a dictionary *)
  repr_other : pyval -> str
}.

(** ** Constants and content *)

Definition EXERCISE_TOPICS : list str :=
  Eval vm_compute in
  map utf8 [ "Polinomios"; "Funciones trigonométricas";
             "Funciones exponenciales"; "Funciones logarítmicas";
             "Regla de la cadena"; "Límites"; "Funciones Hiperbólicas";
             "Regla del Producto"; "Regla del cociente" ]%string.

Definition CUADERNO_CONTEXT : str :=
  Eval vm_compute in
  join_nl [
   [];
   utf8 "Eres un tutor experto en Cálculo Diferencial y estás ayudando a un estudiante a completar su "
     ++ dq ++ utf8 "Cuaderno Digital: Mentor matemático con IA" ++ dq ++ utf8 ".";
   utf8 "Tu objetivo es responder sus dudas basándote en la estructura y contenido de este cuaderno.";
   [];
   utf8 "**Descripción General del Cuaderno:**";
   utf8 "El cuaderno busca que el estudiante comprenda y aplique el concepto de derivada a través de ejercicios y reflexión, usando una IA como herramienta. Está estructurado en tres bloques.";
   [];
   utf8 "**Bloque 1: Concepto Matemático de Derivada**";
   utf8 "- **Objetivo:** Comprender la derivada gráfica, numérica y algebraicamente.";
   utf8 "- **Dudas Frecuentes:**";
   utf8 "    - Sobre la pendiente en f(x)=x^2: La pendiente (inclinación) es negativa para x<0, cero en x=0, y positiva para x>0.";
   utf8 "    - Sobre el cociente de diferencias: Es una aproximación a la pendiente de la recta tangente. A medida que h→0, se acerca a la derivada.";
   utf8 "    - Sobre rectas secante y tangente: La secante corta en dos puntos, la tangente en uno. La tangente es el límite de la secante cuando los dos puntos se unen.";
   utf8 "    - Sobre comparar el límite y el valor exacto en f(x)=√x: El valor exacto se calcula con la regla de la potencia. El valor del límite de la tabla es una aproximación numérica; pueden existir pequeñas diferencias.";
   [];
   utf8 "**Bloque 2: Ejercicios de Derivación**";
   utf8 "- **Objetivo:** Aplicar reglas básicas de derivación.";
   utf8 "- **Dudas Frecuentes:**";
   utf8 "    - Para f(x)=(x²+1)/x: Se puede simplificar a f(x) = x + x⁻¹ y usar la regla de la potencia, o usar la regla del cociente directamente.";
   utf8 "    - Para f(x)=e^x ⋅ cos(x): Se usa la regla del producto (u'v + uv').";
   utf8 "    - Error común: La derivada de un producto NO es el producto de las derivadas.";
   [];
   utf8 "**Bloque 3: Aplicaciones de la Derivada**";
   utf8 "- **Objetivo:** Usar la derivada para resolver problemas de optimización y análisis.";
   utf8 "- **Dudas Frecuentes:**";
   utf8 "    - Problema de la lata cilíndrica: Se busca minimizar el área superficial (material) para un volumen fijo. Se usan las fórmulas de área y volumen del cilindro.";
   utf8 "    - Rol de la derivada en optimización: Ayuda a encontrar puntos críticos (donde f'(x)=0), que son candidatos a ser máximos o mínimos.";
   utf8 "    - Intervalos de crecimiento/decrecimiento: Se encuentra f'(x), se iguala a cero para hallar puntos críticos. El signo de f'(x) en los intervalos resultantes determina si la función crece (f'>0) o decrece (f'<0).";
   utf8 "    - Descripción de máximos y mínimos: Un máximo relativo ocurre si la función cambia de creciente a decreciente. Un mínimo, si cambia de decreciente a creciente.";
   [] ].

(** Inline keyboards: rows of (label, callback data). *)
Definition keyboard := list (list (str * str)).

Definition MAIN_MENU_KEYBOARD : keyboard :=
  Eval vm_compute in [[(utf8 "« Volver al Menú Principal", utf8 "main_menu")]].

(** The values of [bot_state]. *)
Module Mode.
Definition idle := Eval vm_compute in utf8 "idle".
Definition duda_cuaderno := Eval vm_compute in utf8 "waiting_for_duda_cuaderno".
Definition doubt := Eval vm_compute in utf8 "waiting_for_doubt".
Definition deepen_topic := Eval vm_compute in utf8 "waiting_for_deepen_topic".
Definition example_topic := Eval vm_compute in utf8 "waiting_for_example_topic".
Definition exercise_topic := Eval vm_compute in utf8 "waiting_for_exercise_topic".
Definition exercise_difficulty :=
  Eval vm_compute in utf8 "waiting_for_exercise_difficulty".
Definition exercise_answer := Eval vm_compute in utf8 "waiting_for_exercise_answer".
Definition exercise_resolution :=
  Eval vm_compute in utf8 "waiting_for_exercise_resolution".
Definition next_action := Eval vm_compute in utf8 "waiting_for_next_action".
End Mode.

(** The failure strings of [call_gemini_api]. *)
Module Msg.
Definition not_configured :=
  Eval vm_compute in utf8 "Error: La conexión con la IA no está configurada.".
Definition no_answer :=
  Eval vm_compute in utf8 "Lo siento, no pude generar una respuesta en este momento.".
Definition http_error :=
  Eval vm_compute in utf8 "Hubo un problema con la IA. Inténtalo de nuevo más tarde.".
Definition connect_error :=
  Eval vm_compute in utf8 "Hubo un problema conectando con la IA. Inténtalo de nuevo.".
(** Replies of the handlers the properties below talk about. *)
Definition retry_exercise :=
  Eval vm_compute in utf8 "No pude generar un ejercicio. Inténtalo de nuevo con /prueba.".
Definition bad_format :=
  Eval vm_compute in utf8 "Formato incorrecto. Ejemplo: '¿Qué es la derivada? nivel Fácil'".
Definition unexpected :=
  Eval vm_compute in
  utf8 "Lo siento, ocurrió un error inesperado. He notificado a mi desarrollador.".
End Msg.

(** ** The user record

    The dictionary [{"bot_state", "last_asesoria_topic", "current_exercise"}]
    kept per user; a user without a document, or with an empty [user_data],
    is read as [default_state] by [get_user_state]. *)

Record user_state := UserState {
  bot_state : str;
  last_asesoria_topic : option str;
  current_exercise : option dict
}.

Definition default_state : user_state :=
  {| bot_state := Mode.idle; last_asesoria_topic := None; current_exercise := None |}.

Definition set_bot_state (m : str) (s : user_state) : user_state :=
  {| bot_state := m;
     last_asesoria_topic := last_asesoria_topic s;
     current_exercise := current_exercise s |}.

Definition set_last_asesoria_topic (t : option str) (s : user_state) : user_state :=
  {| bot_state := bot_state s;
     last_asesoria_topic := t;
     current_exercise := current_exercise s |}.

Definition set_current_exercise (e : option dict) (s : user_state) : user_state :=
  {| bot_state := bot_state s;
     last_asesoria_topic := last_asesoria_topic s;
     current_exercise := e |}.

(** ** The AI gateway *)

(** What the request of [call_gemini_api] meets upstream. *)
Inductive upstream :=
| StatusError
    (** [response.raise_for_status()] raises [httpx.HTTPStatusError] *)
| OtherError
    (** the request, [response.json()] or the walk through the candidates
        raises anything else *)
| Answer (text_content : option str) (loads : option pyval).
    (** the text of the first part ([None] when there is none) and what
        [json.loads] makes of it ([None] when it raises) *)

Section Gateway.
Variable E : env.

(** [call_gemini_api(prompt, is_structured, schema)]; the prompt and the
    schema only shape the request. *)
Definition call_gemini_api (up : upstream) (is_structured : bool) : pyval :=
  if negb (GEMINI_API_KEY E) then VStr Msg.not_configured
  else
    match up with
    | Answer (Some (c :: text)) loads =>
        if is_structured then
          match loads with
          | Some v => v
          | None => VStr Msg.connect_error
          end
        else VStr (c :: text)
    | Answer _ _ => VStr Msg.no_answer
    | StatusError => VStr Msg.http_error
    | OtherError => VStr Msg.connect_error
    end.
End Gateway.

(** ** Message delivery *)

Definition MAX_LENGTH : nat := 4096.

(** The loop of [send_long_message] over the lines still to place, with
    the part being filled; the last part is appended after the loop. *)
Fixpoint pack (lines : list str) (current_part : str) : list str :=
  match lines with
  | [] => [current_part]
  | line :: rest =>
      if MAX_LENGTH <? len current_part + len line + 1
      then current_part :: pack rest line
      else pack rest (current_part ++ nl ++ line)
  end.

Definition parts_of (text : str) : list str := pack (split_nl text) [].

(** [send_long_message(message_or_query, text)]: the texts handed to
    [reply_text], in the order of the calls. *)
Definition send_long_message (text : str) : list str :=
  if len text <=? MAX_LENGTH then [text]
  else
    flat_map (fun part => match strip part with
                          | [] => []
                          | c :: r => [c :: r]
                          end) (parts_of text).

(** ** The doubt pattern

    [re.search(r'(.+)\s+nivel\s*(fácil|intermedio|avanzado)', text,
    re.IGNORECASE)]. *)

Module DoubtPattern.

(** A literal of the pattern against a character of the text under
    [re.IGNORECASE]: the characters whose lowercase is the literal, and for
    [i] also the dotless i. *)
Definition ci (p c : N) : bool :=
  (if (c <? 256)%N then (lower_latin1 c =? p)%N else false)
  || ((p =? 105)%N && ((c =? 304)%N || (c =? 305)%N)).

(** The literal word [p] at the head of [t]: what follows it. *)
Fixpoint word (p t : str) : option str :=
  match p, t with
  | [], _ => Some t
  | a :: p', c :: t' => if ci a c then word p' t' else None
  | _ :: _, [] => None
  end.

Definition nivel := Eval vm_compute in utf8 "nivel".
Definition levels := Eval vm_compute in map utf8 ["fácil"; "intermedio"; "avanzado"]%string.

(** [(fácil|intermedio|avanzado)] at the head of [t], tried in this order:
    the text of the group. *)
Fixpoint alternatives (ws : list str) (t : str) : option str :=
  match ws with
  | [] => None
  | w :: r =>
      match word w t with
      | Some _ => Some (firstn (len w) t)
      | None => alternatives r t
      end
  end.

(** [\s+nivel\s*(...)] at the head of [t].  Both runs of white space are
    greedy, and what follows each of them is not white space, so only the
    longest run can succeed. *)
Definition tail (t : str) : option str :=
  match t with
  | c :: r =>
      if isspace c then
        match word nivel (lstrip r) with
        | Some r' => alternatives levels (lstrip r')
        | None => None
        end
      else None
  | [] => None
  end.

(** The whole pattern at the head of [t]: [(.+)] takes as many characters
    other than the line feed as it can and gives them back one by one. *)
Fixpoint here (t : str) : option (str * str) :=
  match t with
  | [] => None
  | c :: r =>
      if (c =? LF)%N then None
      else
        match here r with
        | Some (doubt, difficulty) => Some (c :: doubt, difficulty)
        | None =>
            match tail r with
            | Some difficulty => Some ([c], difficulty)
            | None => None
            end
        end
  end.

(** [re.search]: the first position where the pattern matches; the result
    is [match.groups()]. *)
Fixpoint search (t : str) : option (str * str) :=
  match here t with
  | Some g => Some g
  | None =>
      match t with
      | [] => None
      | _ :: r => search r
      end
  end.

End DoubtPattern.

(** ** Handlers *)

(** What a handler does to the chat. *)
Inductive out :=
| Typing
| AnswerCallback
| Reply (text : str) (reply_markup : option keyboard)
| EditMessage (text : str) (reply_markup : option keyboard).

(** The objects a handler works on. [state] is the handler's variable of
    that name; [store] is the user's record in Firestore or, without a
    database, [context.user_data]. *)
Record world := World {
  state : user_state;
  store : user_state;
  outbox : list out;
  gateway_calls : list str;
  interactions : list str
}.

Inductive res (A : Type) :=
| Ok (a : A)
| Raise (e : exn).
Arguments Raise {A} e.

Definition M (A : Type) := world -> res A * world.

Definition ret {A} (a : A) : M A := fun w => (Ok a, w).

Definition raise {A} (e : exn) : M A := fun w => (Raise e, w).

Definition bind {A B} (c : M A) (k : A -> M B) : M B :=
  fun w => match c w with
           | (Ok a, w') => k a w'
           | (Raise e, w') => (Raise e, w')
           end.

Declare Scope py_scope.
Delimit Scope py_scope with py.
Notation "x <- c ;; k" := (bind c (fun x => k))
  (at level 61, c at next level, right associativity) : py_scope.
Notation "c ;; k" := (bind c (fun _ => k))
  (at level 61, right associativity) : py_scope.

Definition lift {A} (r : exn + A) : M A :=
  match r with
  | inl e => raise e
  | inr a => ret a
  end.

Section Handlers.
Variable E : env.

(** The answer of the upstream service to the request of this update,
    should the handler make one. *)
Variable up : upstream.

Local Open Scope py_scope.

(** *** Collaborators *)

(** A call to Telegram, recorded in the outbox.  The calls are taken to
    succeed: a handler that is cut short because Telegram refuses a
    message is outside this model, and the exceptions of the handlers
    below are those of their own statements. *)
Definition send (o : out) : M unit :=
  fun w => (Ok tt, {| state := state w; store := store w;
                      outbox := outbox w ++ [o];
                      gateway_calls := gateway_calls w;
                      interactions := interactions w |}).

Definition reply_text (text : str) (markup : option keyboard) : M unit :=
  send (Reply text markup).

Definition edit_message_text (text : str) (markup : option keyboard) : M unit :=
  send (EditMessage text markup).

Definition send_chat_action : M unit := send Typing.

Definition send_long (text : str) : M unit :=
  fun w => (Ok tt, {| state := state w; store := store w;
                      outbox := outbox w
                                  ++ map (fun t => Reply t None) (send_long_message text);
                      gateway_calls := gateway_calls w;
                      interactions := interactions w |}).

(** [send_long_message] on the result of a gateway call: [len] needs a
    sized value, and [strip] a string. *)
Definition send_long_value (v : pyval) : M unit :=
  match v with
  | VStr s => send_long s
  | _ => raise TypeError
  end.

Definition gemini (prompt : str) (is_structured : bool) : M pyval :=
  fun w => (Ok (call_gemini_api E up is_structured),
            {| state := state w; store := store w; outbox := outbox w;
               gateway_calls := gateway_calls w ++ [prompt];
               interactions := interactions w |}).

(** [save_interaction(user_id, interaction_type, data)] records the
    interaction when there is a database and an application id. *)
Definition save_interaction (interaction_type : str) : M unit :=
  fun w => (Ok tt,
            {| state := state w; store := store w; outbox := outbox w;
               gateway_calls := gateway_calls w;
               interactions := if db E && FIREBASE_APP_ID E
                               then interactions w ++ [interaction_type]
                               else interactions w |}).

(** *** The state store *)

(** [state = await get_user_state(...)]: a copy of the document, or
    [context.user_data] itself. *)
Definition get_user_state : M unit :=
  fun w => (Ok tt, {| state := store w; store := store w; outbox := outbox w;
                      gateway_calls := gateway_calls w;
                      interactions := interactions w |}).

(** [await set_user_state(user_id, s, context)]: [doc_ref.set(s)], or
    [context.user_data.update(s)], which overwrites the three keys. *)
Definition set_user_state (s : user_state) : M unit :=
  fun w => (Ok tt, {| state := state w; store := s; outbox := outbox w;
                      gateway_calls := gateway_calls w;
                      interactions := interactions w |}).

Definition the_state : M user_state := fun w => (Ok (state w), w).

(** An assignment into [state]. Without a database [state] is
    [context.user_data], and the store changes with it. *)
Definition mutate (f : user_state -> user_state) : M unit :=
  fun w => let s := f (state w) in
           (Ok tt, {| state := s;
                      store := if db E then store w else s;
                      outbox := outbox w;
                      gateway_calls := gateway_calls w;
                      interactions := interactions w |}).

Definition save : M unit := s <- the_state ;; set_user_state s.

(** *** Formatting *)

(** [f"{v}"] *)
Definition format (v : pyval) : str :=
  match v with
  | VStr s => s
  | VNone => utf8 "None"
  | VBool true => utf8 "True"
  | VBool false => utf8 "False"
  | VInt z => of_Z z
  | _ => repr_other E v
  end.

Definition of_option (o : option pyval) : pyval :=
  match o with
  | Some v => v
  | None => VNone
  end.

(** [int(s)] *)
Definition int (s : str) : M Z :=
  match s with
  | [] => raise ValueError
  | _ =>
      match Py.digits 0 s with
      | Some z => ret z
      | None =>
          match int_other E s with
          | Some z => ret z
          | None => raise ValueError
          end
      end
  end.

(** [state['current_exercise'][key]] *)
Definition exercise_item (key : str) : M pyval :=
  s <- the_state ;;
  match current_exercise s with
  | None => raise TypeError
  | Some d =>
      match Py.dict_get (VStr key) d with
      | Some v => ret v
      | None => raise KeyError
      end
  end.

(** [state.get("current_exercise", {})]; the key is always there, so the
    default is not used and the value may be [None]. *)
Definition exercise_or_none : M dict :=
  s <- the_state ;;
  match current_exercise s with
  | None => raise AttributeError
  | Some d => ret d
  end.

(** *** Exercise generation *)

Definition generate_exercise : M unit :=
  topic <- exercise_item (utf8 "topic") ;;
  difficulty <- exercise_item (utf8 "difficulty") ;;
  let prompt :=
    utf8 "Crea un ejercicio de Cálculo Diferencial sobre '" ++ format topic
    ++ utf8 "' con dificultad " ++ format difficulty
    ++ utf8 "/5. Devuelve JSON con claves 'problem' y 'solution'. Usa texto plano." in
  send_chat_action ;;
  exercise_data <- gemini prompt true ;;
  found <- (if Py.truthy exercise_data
            then lift (Py.str_in (utf8 "problem") exercise_data)
            else ret false) ;;
  (if found : bool then
     mutate (set_bot_state Mode.exercise_answer) ;;
     d <- exercise_or_none ;;
     (let (d', e) := Py.dict_update exercise_data d in
      mutate (set_current_exercise (Some d')) ;;
      match e with
      | Some x => raise x
      | None => ret tt
      end) ;;
     problem <- lift (Py.getitem (utf8 "problem") exercise_data) ;;
     send_long (utf8 "Aquí tienes:" ++ nl ++ nl ++ format problem ++ nl ++ nl
                ++ utf8 "Escribe tu respuesta.")
   else
     reply_text Msg.retry_exercise None ;;
     mutate (set_bot_state Mode.idle)) ;;
  save.

(** *** Command handlers *)

Definition welcome_text : str :=
  utf8 "¡Hola! Soy tu compañero de estudio para Cálculo Diferencial. Tengo las siguientes funciones:"
  ++ nl ++ nl
  ++ utf8 "📚 `/asesoria`: Dudas específicas sobre temas." ++ nl
  ++ utf8 "💡 `/ejemplo`: Un ejemplo práctico de un tema." ++ nl
  ++ utf8 "🧠 `/prueba`: Pon a prueba tus conocimientos." ++ nl
  ++ utf8 "📖 `/dudas`: Apoyo para el Cuaderno Digital." ++ nl
  ++ utf8 "📊 `/encuesta`: Ayúdame a mejorar." ++ nl ++ nl
  ++ utf8 "Estoy para ayudarte.".

Definition start_command : M unit :=
  set_user_state default_state ;;
  reply_text welcome_text None.

Definition asesoria_command : M unit :=
  get_user_state ;;
  mutate (set_bot_state Mode.doubt) ;;
  save ;;
  reply_text (utf8 "Por favor, dime tu duda y el nivel de dificultad. " ++ nl
              ++ utf8 "Ej: '¿Qué es la derivada? nivel Fácil'") None.

Definition ejemplo_command : M unit :=
  get_user_state ;;
  mutate (set_bot_state Mode.example_topic) ;;
  save ;;
  reply_text (utf8 "¡Claro! ¿Sobre qué tema de Cálculo Diferencial te gustaría un ejemplo?")
             None.

Definition prueba_command : M unit :=
  get_user_state ;;
  mutate (set_bot_state Mode.exercise_topic) ;;
  save ;;
  let keyboard := map (fun topic => [(topic, utf8 "topic_" ++ topic)]) EXERCISE_TOPICS in
  reply_text (utf8 "¡Excelente! Elige el tema:") (Some keyboard).

Definition dudas_command : M unit :=
  get_user_state ;;
  mutate (set_bot_state Mode.duda_cuaderno) ;;
  save ;;
  reply_text (utf8 "Has entrado a la sección de ayuda para el Cuaderno Digital."
              ++ nl ++ nl
              ++ utf8 "Por favor, escribe tu pregunta sobre cualquier parte del cuaderno y te ayudaré a resolverla.")
             None.

Definition encuesta_command : M unit :=
  reply_text (utf8 "¡Gracias por ayudarme a mejorar! Tu opinión es muy valiosa."
              ++ nl ++ nl
              ++ utf8 "Por favor, completa la siguiente encuesta:" ++ nl
              ++ utf8 "https://forms.gle/dtyB5o2FncCA7zMy7") None ;;
  save_interaction (utf8 "encuesta_link_sent").

(** *** Free text *)

Definition difficulty_map : dict :=
  [ (VStr (utf8 "fácil"), VStr (utf8 "básico"));
    (VStr (utf8 "intermedio"), VStr (utf8 "detallado"));
    (VStr (utf8 "avanzado"), VStr (utf8 "experto")) ].

Definition positive_keywords : list str :=
  map utf8 ["correcto"; "exacto"; "perfecto"; "muy bien"; "excelente";
            "felicidades"]%string.

(** [any(keyword in verification.lower() for keyword in positive_keywords)] *)
Definition is_positive (verification : str) : bool :=
  existsb (fun keyword => contains keyword (lower (lower_wide E) verification))
          positive_keywords.

Definition deepen_keyboard : keyboard := [[(utf8 "No, gracias", utf8 "deepen_no")]].

Definition handle_text_message (text : str) : M unit :=
  get_user_state ;;
  s <- the_state ;;
  let bot_state := bot_state s in
  send_chat_action ;;
  (if PyStr.eqb bot_state Mode.duda_cuaderno then
     let prompt :=
       CUADERNO_CONTEXT ++ nl ++ nl ++ utf8 "---" ++ nl ++ nl
       ++ utf8 "Basado en el contexto anterior del 'Cuaderno Digital', responde la siguiente duda del estudiante de la manera más clara y útil posible:"
       ++ nl ++ nl ++ utf8 "PREGUNTA DEL ESTUDIANTE: '" ++ text ++ utf8 "'" in
     bot_response <- gemini prompt false ;;
     send_long_value bot_response ;;
     save_interaction (utf8 "duda_cuaderno") ;;
     reply_text (utf8 "¿Tienes alguna otra duda sobre el cuaderno?")
                (Some MAIN_MENU_KEYBOARD)
   else if PyStr.eqb bot_state Mode.doubt then
     match DoubtPattern.search text with
     | Some (doubt, difficulty) =>
         level <- lift (Py.getitem (lower (lower_wide E) difficulty)
                                   (VDict difficulty_map)) ;;
         let prompt :=
           utf8 "Eres un tutor experto en Cálculo Diferencial. Explica: " ++ dq
           ++ strip doubt ++ dq ++ utf8 ". Nivel: " ++ format level
           ++ utf8 ". Usa texto plano (ej: x^2)." in
         bot_response <- gemini prompt false ;;
         send_long_value bot_response ;;
         save_interaction (utf8 "asesoria") ;;
         mutate (fun s => set_last_asesoria_topic (Some doubt)
                            (set_bot_state Mode.deepen_topic s)) ;;
         reply_text (utf8 "¿Quieres profundizar en algo más?") (Some deepen_keyboard)
     | None => reply_text Msg.bad_format None
     end
   else if PyStr.eqb bot_state Mode.deepen_topic then
     let topic := match last_asesoria_topic s with
                  | Some t => VStr t
                  | None => VNone
                  end in
     let prompt :=
       utf8 "Eres un tutor experto. Profundiza en " ++ dq ++ strip text ++ dq
       ++ utf8 " en el contexto de " ++ dq ++ format topic ++ dq ++ utf8 "." in
     bot_response <- gemini prompt false ;;
     send_long_value bot_response ;;
     save_interaction (utf8 "profundizar_asesoria") ;;
     reply_text (utf8 "¿Quieres profundizar en algo más?") (Some deepen_keyboard)
   else if PyStr.eqb bot_state Mode.example_topic then
     let prompt :=
       utf8 "Proporciona un ejemplo práctico y resuelto sobre " ++ dq ++ strip text
       ++ dq ++ utf8 " en Cálculo Diferencial. Explícalo paso a paso. Usa texto plano." in
     bot_response <- gemini prompt false ;;
     send_long_value bot_response ;;
     save_interaction (utf8 "ejemplo") ;;
     mutate (set_bot_state Mode.idle) ;;
     reply_text (utf8 "Espero que el ejemplo haya sido útil.") (Some MAIN_MENU_KEYBOARD)
   else if PyStr.eqb bot_state Mode.exercise_answer then
     exercise <- exercise_or_none ;;
     let indent := utf8 "        " in
     let prompt :=
       utf8 "Evalúa esta respuesta de un estudiante de Cálculo." ++ nl
       ++ indent ++ utf8 "- Problema: " ++ dq
       ++ format (of_option (Py.dict_get (VStr (utf8 "problem")) exercise)) ++ dq ++ nl
       ++ indent ++ utf8 "- Solución Correcta: " ++ dq
       ++ format (of_option (Py.dict_get (VStr (utf8 "solution")) exercise)) ++ dq ++ nl
       ++ indent ++ utf8 "- Respuesta del Estudiante: " ++ dq ++ strip text ++ dq ++ nl
       ++ indent ++ utf8 "Si es correcta, felicita y ASEGÚRATE de incluir la palabra "
       ++ dq ++ utf8 "correcto" ++ dq
       ++ utf8 ". Si no, da una pista SIN revelar la solución. Usa texto plano." in
     verification <- gemini prompt false ;;
     send_long_value verification ;;
     save_interaction (utf8 "verificacion_ejercicio") ;;
     match verification with
     | VStr v =>
         if is_positive v then
           reply_text (utf8 "¿Qué te gustaría hacer ahora?")
                      (Some [[(utf8 "Otro ejercicio similar", utf8 "next_action_similar")];
                             [(utf8 "Regresar al menú principal", utf8 "main_menu")]]) ;;
           mutate (set_bot_state Mode.next_action)
         else
           reply_text (utf8 "¿Qué quieres hacer?")
                      (Some [[(utf8 "Intentar de nuevo", utf8 "resolution_retry")];
                             [(utf8 "Ver la solución", utf8 "resolution_solve")]]) ;;
           mutate (set_bot_state Mode.exercise_resolution)
     | _ => raise AttributeError
     end
   else ret tt) ;;
  save.

(** *** Button presses *)

Definition handle_callback_query (action : str) : M unit :=
  send AnswerCallback ;;
  get_user_state ;;
  (if startswith (utf8 "topic_") action then
     let topic := skipn 6 action in
     mutate (fun s => set_current_exercise (Some [(VStr (utf8 "topic"), VStr topic)])
                        (set_bot_state Mode.exercise_difficulty s)) ;;
     let keyboard :=
       [map (fun i => (of_Z i, utf8 "diff_" ++ of_Z i)) [1; 2; 3; 4; 5]%Z] in
     edit_message_text (utf8 "Tema: " ++ topic ++ utf8 ". Elige dificultad:")
                       (Some keyboard)
   else if startswith (utf8 "diff_") action then
     difficulty <- int (skipn 5 action) ;;
     s <- the_state ;;
     match current_exercise s with
     | None => raise TypeError
     | Some d =>
         mutate (set_current_exercise
                   (Some (Py.dict_set (VStr (utf8 "difficulty")) (VInt difficulty) d)))
     end ;;
     topic <- exercise_item (utf8 "topic") ;;
     edit_message_text (utf8 "OK. Generando ejercicio de " ++ format topic
                        ++ utf8 " (Nivel " ++ of_Z difficulty ++ utf8 ")...") None ;;
     generate_exercise
   else if PyStr.eqb action (utf8 "deepen_no") || PyStr.eqb action (utf8 "main_menu") then
     mutate (fun s => set_last_asesoria_topic None (set_bot_state Mode.idle s)) ;;
     edit_message_text
       (utf8 "De acuerdo, volviendo al menú principal. Usa /start para ver las opciones.")
       None
   else if PyStr.eqb action (utf8 "next_action_similar") then
     edit_message_text (utf8 "¡Perfecto! Generando otro ejercicio...") None ;;
     generate_exercise
   else if PyStr.eqb action (utf8 "resolution_retry") then
     mutate (set_bot_state Mode.exercise_answer) ;;
     edit_message_text (utf8 "¡Claro! Tómate tu tiempo y escribe tu nueva respuesta.") None
   else if PyStr.eqb action (utf8 "resolution_solve") then
     mutate (set_bot_state Mode.idle) ;;
     exercise <- exercise_or_none ;;
     let solution :=
       match Py.dict_get (VStr (utf8 "solution")) exercise with
       | Some v => v
       | None => VStr (utf8 "No se encontró la solución.")
       end in
     edit_message_text (utf8 "La solución es:" ++ nl ++ nl ++ format solution)
                       (Some MAIN_MENU_KEYBOARD)
   else ret tt) ;;
  save.
End Handlers.

(** ** Dispatch *)

(** The updates the handlers of [main] are registered for. [Command name]
    is a message that starts with a command addressed to this bot; [name]
    is the command as it was typed, between the slash and the end of the
    command or its [@username] suffix.  [Text body] is a text message that
    is no command, [ButtonPress action] a callback query with its data.
    The messages are new messages of a chat: an edited message, for which
    [update.message] is [None], is not among the events. *)
Inductive event :=
| Command (name : str)
| Text (body : str)
| ButtonPress (action : str).

Module Cmd.
Definition start := Eval vm_compute in utf8 "start".
Definition asesoria := Eval vm_compute in utf8 "asesoria".
Definition ejemplo := Eval vm_compute in utf8 "ejemplo".
Definition prueba := Eval vm_compute in utf8 "prueba".
Definition dudas := Eval vm_compute in utf8 "dudas".
Definition encuesta := Eval vm_compute in utf8 "encuesta".
End Cmd.

Section Dispatch.
Variable E : env.
Variable up : upstream.

(** The handlers registered in [main]. [CommandHandler] looks the command
    up in lowercase ([command.lower() in self.commands]), so [/START] runs
    [start_command]; a command without a handler is dropped, since the
    text handler filters commands out. *)
Definition handler (ev : event) : M unit :=
  match ev with
  | Command name =>
      if PyStr.eqb (lower (lower_wide E) name) Cmd.start then start_command
      else if PyStr.eqb (lower (lower_wide E) name) Cmd.asesoria then asesoria_command E
      else if PyStr.eqb (lower (lower_wide E) name) Cmd.ejemplo then ejemplo_command E
      else if PyStr.eqb (lower (lower_wide E) name) Cmd.prueba then prueba_command E
      else if PyStr.eqb (lower (lower_wide E) name) Cmd.dudas then dudas_command E
      else if PyStr.eqb (lower (lower_wide E) name) Cmd.encuesta then encuesta_command E
      else ret tt
  | Text body => handle_text_message E up body
  | ButtonPress action => handle_callback_query E up action
  end.

Definition error_handler : M unit := reply_text Msg.unexpected None.

(** The world a handler starts in, for a user whose record is [s]. *)
Definition enter (s : user_state) : world :=
  {| state := s; store := s; outbox := []; gateway_calls := []; interactions := [] |}.

(** One update, from the stored record to the world it leaves behind:
    an exception of the handler reaches [error_handler]. *)
Definition handle_event (ev : event) (s : user_state) : world :=
  match handler ev (enter s) with
  | (Ok _, w) => w
  | (Raise _, w) => snd (error_handler w)
  end.

(** The exception the handler of the update ends with, if any. *)
Definition raised (ev : event) (s : user_state) : option exn :=
  match handler ev (enter s) with
  | (Ok _, _) => None
  | (Raise e, _) => Some e
  end.
End Dispatch.

(** The record persisted after one update and after a run of them, each
    with the answer the upstream service gives during it. *)
Definition step (E : env) (s : user_state) (x : event * upstream) : user_state :=
  store (handle_event E (snd x) (fst x) s).

Definition run_events (E : env) (xs : list (event * upstream)) (s : user_state)
  : user_state :=
  fold_left (step E) xs s.

(** A deployment for the examples: the tables of the runtime are cut down
    to the identity and to failure. *)
Definition deployment (with_db : bool) : env :=
  {| db := with_db; GEMINI_API_KEY := true; FIREBASE_APP_ID := true;
     lower_wide := fun s i => match nth_error s i with
                              | Some c => [c]
                              | None => []
                              end;
     int_other := fun _ => None;
     repr_other := fun _ => utf8 "..." |}.


(** * Properties *)

Unset Implicit Arguments.

(** ** Notions used by the statements *)

(** [wp c Q w]: running [c] in [w] ends, with a value or an exception, in
    a world satisfying [Q]. *)
Definition wp {A} (c : M A) (Q : res A -> world -> Prop) (w : world) : Prop :=
  Q (fst (c w)) (snd (c w)).

(** The world after an update, with the reply of [error_handler] when the
    handler raised. *)
Definition settle (r : res unit) (w : world) : world :=
  match r with
  | Ok _ => w
  | Raise _ => snd (error_handler w)
  end.

Definition among (m : str) (ms : list str) : bool := existsb (PyStr.eqb m) ms.

(** The modes of the exercise flow after the topic was chosen. *)
Definition exercise_modes : list str :=
  [Mode.exercise_difficulty; Mode.exercise_answer; Mode.exercise_resolution;
   Mode.next_action].

(** The same without the mode a bare [resolution_retry] leads to. *)
Definition guarded_modes : list str :=
  [Mode.exercise_difficulty; Mode.exercise_resolution; Mode.next_action].

Definition has_exercise (s : user_state) : bool :=
  match current_exercise s with
  | Some _ => true
  | None => false
  end.

Definition commands : list str :=
  [Cmd.start; Cmd.asesoria; Cmd.ejemplo; Cmd.prueba; Cmd.dudas; Cmd.encuesta].

Definition text_modes : list str :=
  [Mode.duda_cuaderno; Mode.doubt; Mode.deepen_topic; Mode.example_topic;
   Mode.exercise_answer].

Module Action.
Definition topic_ := utf8 "topic_".
Definition diff_ := utf8 "diff_".
Definition deepen_no := utf8 "deepen_no".
Definition main_menu := utf8 "main_menu".
Definition next_action_similar := utf8 "next_action_similar".
Definition resolution_retry := utf8 "resolution_retry".
Definition resolution_solve := utf8 "resolution_solve".
End Action.

(** The transition table of the specification, as it is written there:
    does it have a row for this event in this mode?  Commands have a row
    in every mode, free text in five modes, and each button in the modes
    whose messages show it. *)
Definition table_defines (mode : str) (ev : event) : bool :=
  match ev with
  | Command name => among name commands
  | Text _ => among mode text_modes
  | ButtonPress a =>
      (PyStr.eqb mode Mode.deepen_topic
       && among a [Action.deepen_no; Action.main_menu])
      || (PyStr.eqb mode Mode.exercise_topic && startswith Action.topic_ a)
      || (PyStr.eqb mode Mode.exercise_difficulty && startswith Action.diff_ a)
      || (PyStr.eqb mode Mode.exercise_resolution
          && among a [Action.resolution_retry; Action.resolution_solve])
      || (PyStr.eqb mode Mode.next_action
          && among a [Action.next_action_similar; Action.main_menu])
  end.

(** The events the handlers have a branch for: the same commands and text
    modes, and the buttons by their action alone. *)
Definition branch_exists (mode : str) (ev : event) : bool :=
  match ev with
  | Command name => among name commands
  | Text _ => among mode text_modes
  | ButtonPress a =>
      startswith Action.topic_ a || startswith Action.diff_ a
      || among a [Action.deepen_no; Action.main_menu; Action.next_action_similar;
                  Action.resolution_retry; Action.resolution_solve]
  end.

(** The event as the handlers are looked up for it: a command counts in
    lowercase. *)
Definition as_dispatched (E : env) (ev : event) : event :=
  match ev with
  | Command name => Command (lower (lower_wide E) name)
  | _ => ev
  end.

(** A line that [strip] empties. *)
Definition blank (l : str) : bool :=
  match strip l with
  | [] => true
  | _ :: _ => false
  end.

Definition nonblank_lines (ls : list str) : list str :=
  filter (fun l => negb (blank l)) ls.

(** [w] is [lw] up to the case of its Latin-1 letters. *)
Definition case_variant (lw w : str) : bool :=
  forallb (fun c => (c <? 256)%N) w && PyStr.eqb (map lower_latin1 w) lw.

(** The failures of a gateway call as the specification groups them: the
    service could not be reached or answered with an HTTP error ... *)
Definition unreachable (up : upstream) : bool :=
  match up with
  | StatusError | OtherError => true
  | Answer _ _ => false
  end.

(** ... or its answer is empty, or is not the JSON that was asked for. *)
Definition malformed (up : upstream) (is_structured : bool) : bool :=
  match up with
  | Answer (Some (_ :: _)) None => is_structured
  | Answer (Some (_ :: _)) (Some _) => false
  | Answer _ _ => true
  | _ => false
  end.

Definition failure_strings : list str :=
  [Msg.not_configured; Msg.no_answer; Msg.http_error; Msg.connect_error].

(** A text of two lines, 4098 characters long, whose first line is
    indented. *)
Definition indented_text : str :=
  utf8 " a" ++ nl ++ repeat 98%N 4095.

(** A stored exercise, and a user who has just chosen its topic. *)
Definition polinomios : dict :=
  [(VStr (utf8 "topic"), VStr (utf8 "Polinomios"))].

Definition chose_topic : user_state :=
  {| bot_state := Mode.exercise_difficulty;
     last_asesoria_topic := None;
     current_exercise := Some polinomios |}.

Definition answering : user_state :=
  {| bot_state := Mode.exercise_answer;
     last_asesoria_topic := None;
     current_exercise :=
       Some [(VStr (utf8 "topic"), VStr (utf8 "Polinomios"));
             (VStr (utf8 "difficulty"), VInt 3);
             (VStr (utf8 "problem"), VStr (utf8 "Deriva x^2"));
             (VStr (utf8 "solution"), VStr (utf8 "2x"))] |}.

(** Two worlds left by the same button press agree on everything except,
    possibly, the mode: either the press set it, or each world kept the
    mode it started from. *)
Definition agree_but_mode (m0 m0' : str) (w w' : world) : Prop :=
  outbox w' = outbox w
  /\ gateway_calls w' = gateway_calls w
  /\ interactions w' = interactions w
  /\ last_asesoria_topic (store w') = last_asesoria_topic (store w)
  /\ current_exercise (store w') = current_exercise (store w)
  /\ (bot_state (store w') = bot_state (store w)
      \/ (bot_state (store w) = m0 /\ bot_state (store w') = m0')).

(** The exercise is there in the guarded modes. *)
Definition exercise_kept (s : user_state) : Prop :=
  among (bot_state s) guarded_modes = true -> has_exercise s = true.


(** The non-blank lines of a text, each without the white space around
    it. *)
Definition stripped_lines (text : str) : list str :=
  map strip (nonblank_lines (split_nl text)).

(** One part of a long message as it is sent: stripped, and dropped when
    nothing is left. *)
Definition sent_part (part : str) : list str :=
  match strip part with
  | [] => []
  | c :: r => [c :: r]
  end.

(** ** Further notions *)

(** The buttons a message shows. *)
Definition buttons_of (o : out) : list (str * str) :=
  match o with
  | Reply _ (Some kb) | EditMessage _ (Some kb) => List.concat kb
  | _ => []
  end.

(** The callback data of every button of the message has a branch in
    [handle_callback_query]. *)
Definition buttons_known (o : out) : bool :=
  forallb (fun b => branch_exists [] (ButtonPress (snd b))) (buttons_of o).

(** What the handler of an update ends with, before [error_handler]. *)
Definition run (E : env) (up : upstream) (ev : event) (s : user_state)
  : res unit * world :=
  handler E up ev (enter s).

Definition is_raise {A} (r : res A) : bool :=
  match r with
  | Ok _ => false
  | Raise _ => true
  end.

(** The exception that the statements of [handle_text_message] raise by
    themselves, read off the record and the text: a difficulty word whose
    lowercase is no key of [difficulty_map], or an answer without an
    exercise to check it against. *)
Definition text_failure (E : env) (body : str) (s : user_state) : option exn :=
  if PyStr.eqb (bot_state s) Mode.doubt then
    match DoubtPattern.search body with
    | Some (_, difficulty) =>
        match Py.getitem (lower (lower_wide E) difficulty) (VDict difficulty_map) with
        | inl e => Some e
        | inr _ => None
        end
    | None => None
    end
  else if PyStr.eqb (bot_state s) Mode.exercise_answer then
    match current_exercise s with
    | None => Some AttributeError
    | Some _ => None
    end
  else None.

(** [t] holds a match of the doubt pattern with the groups [doubt] and
    [difficulty]: a non-empty run without line feed, white space, the word
    nivel in any case, optional white space, and a level word in any
    case. *)
Definition doubt_match (t doubt difficulty : str) : Prop :=
  exists pre sp nv sp' lw post,
    t = pre ++ doubt ++ sp ++ nv ++ sp' ++ difficulty ++ post
    /\ doubt <> [] /\ ~ In LF doubt
    /\ sp <> [] /\ forallb isspace sp = true
    /\ DoubtPattern.word DoubtPattern.nivel nv = Some []
    /\ forallb isspace sp' = true
    /\ In lw DoubtPattern.levels
    /\ DoubtPattern.word lw difficulty = Some [].

Definition latin1 (w : str) : bool := forallb (fun c => (c <? 256)%N) w.

Definition tiers : list str := map utf8 ["básico"; "detallado"; "experto"]%string.

(** [d.update(m)] for a dictionary [m], as [dict_update] computes it. *)
Definition merged (m d : dict) : dict :=
  fold_left (fun acc kv => Py.dict_set (fst kv) (snd kv) acc) m d.

(** No key is listed twice, as in every dictionary of Python. *)
Fixpoint unique_keys (m : dict) : bool :=
  match m with
  | [] => true
  | (k, _) :: r =>
      match Py.dict_get k r with
      | None => unique_keys r
      | Some _ => false
      end
  end.

(** The exercise of the record has a topic and a difficulty. *)
Definition ready (s : user_state) : bool :=
  match current_exercise s with
  | Some d =>
      match Py.dict_get (VStr (utf8 "topic")) d,
            Py.dict_get (VStr (utf8 "difficulty")) d with
      | Some _, Some _ => true
      | _, _ => false
      end
  | None => false
  end.

(** The prompt of [generate_exercise] for the exercise [d]. *)
Definition generation_prompt (E : env) (d : dict) : str :=
  utf8 "Crea un ejercicio de Cálculo Diferencial sobre '"
  ++ format E (of_option (Py.dict_get (VStr (utf8 "topic")) d))
  ++ utf8 "' con dificultad "
  ++ format E (of_option (Py.dict_get (VStr (utf8 "difficulty")) d))
  ++ utf8 "/5. Devuelve JSON con claves 'problem' y 'solution'. Usa texto plano.".

(** The string [problem] is an element of the list. *)
Definition lists_problem (l : list pyval) : bool :=
  existsb (fun e => match e with
                    | VStr s => PyStr.eqb s (utf8 "problem")
                    | _ => false
                    end) l.

(** The commands that only set the mode, with the mode they set. *)
Definition command_modes : list (str * str) :=
  [(Cmd.asesoria, Mode.doubt); (Cmd.ejemplo, Mode.example_topic);
   (Cmd.prueba, Mode.exercise_topic); (Cmd.dudas, Mode.duda_cuaderno)].

(** The modes in which free text is passed to the gateway as it is, with
    the mode that follows. *)
Definition answer_modes : list (str * str) :=
  [(Mode.duda_cuaderno, Mode.duda_cuaderno); (Mode.deepen_topic, Mode.deepen_topic);
   (Mode.example_topic, Mode.idle)].

(** What [resolution_solve] shows for the exercise [d]. *)
Definition shown_solution (E : env) (d : dict) : str :=
  utf8 "La solución es:" ++ nl ++ nl
  ++ format E (match Py.dict_get (VStr (utf8 "solution")) d with
               | Some v => v
               | None => VStr (utf8 "No se encontró la solución.")
               end).

(** All the buttons of the messages of a world. *)
Definition shown_buttons (w : world) : list (str * str) :=
  flat_map buttons_of (outbox w).

(** ** Reasoning about handlers *)

Lemma wp_bind {A B} (c : M A) (k : A -> M B) Q w :
  wp c (fun r w' => match r with
                    | Ok a => wp (k a) Q w'
                    | Raise e => Q (Raise e) w'
                    end) w ->
  wp (bind c k) Q w.
Proof.
  unfold wp, bind. destruct (c w) as [[a|e] w']; auto.
Qed.

Lemma wp_prim {A} (c : M A) Q w r w' :
  c w = (r, w') -> Q r w' -> wp c Q w.
Proof. unfold wp. intros ->. auto. Qed.

Lemma handle_event_wp E up ev s (P : world -> Prop) :
  wp (handler E up ev) (fun r w => P (settle r w)) (enter s) ->
  P (handle_event E up ev s).
Proof.
  unfold wp, handle_event, settle.
  destruct (handler E up ev (enter s)) as [[a|e] w]; auto.
Qed.

Lemma raised_wp E up ev s (P : option exn -> Prop) :
  wp (handler E up ev)
     (fun r _ => P (match r with Ok _ => None | Raise e => Some e end))
     (enter s) ->
  P (raised E up ev s).
Proof.
  unfold wp, raised.
  destruct (handler E up ev (enter s)) as [[a|e] w]; auto.
Qed.

Ltac wp_simpl :=
  cbv beta iota;
  cbn [state store outbox gateway_calls interactions
       bot_state last_asesoria_topic current_exercise
       set_bot_state set_last_asesoria_topic set_current_exercise
       settle error_handler reply_text send snd fst].

(** A scrutinee is settled by a hypothesis, by computation, or else by
    cases. *)
Ltac wp_value x v :=
  lazymatch x with
  | v => idtac
  | _ =>
      let H := fresh in
      assert (H : x = v) by (vm_compute; reflexivity);
      rewrite H; clear H
  end.

Ltac wp_case x :=
  first
    [ match goal with
      | H : x = _ |- _ => rewrite H
      | H : ?l = _ |- _ => match x with context [l] => rewrite H end
      end
    | let v := eval vm_compute in x in
      lazymatch v with
      | true => wp_value x v
      | false => wp_value x v
      | Some _ => wp_value x v
      | None => wp_value x v
      | inl _ => wp_value x v
      | inr _ => wp_value x v
      | (_, _) => wp_value x v
      | [] => wp_value x v
      | _ :: _ => wp_value x v
      | VStr _ => wp_value x v
      | VDict _ => wp_value x v
      | _ => destruct x eqn:?
      end ].

Ltac wp_step :=
  lazymatch goal with
  | |- wp (bind _ _) _ _ => apply wp_bind
  | |- wp (if ?b then _ else _) _ _ => wp_case b; cbv beta iota
  | |- wp (match ?x with _ => _ end) _ _ => wp_case x; cbv beta iota
  | |- wp save _ _ => unfold save
  | |- wp (int _ _) _ _ => unfold int
  | |- wp (exercise_item _) _ _ => unfold exercise_item
  | |- wp exercise_or_none _ _ => unfold exercise_or_none
  | |- wp (send_long_value _) _ _ => unfold send_long_value
  | |- wp (lift _) _ _ => unfold lift
  | |- wp (generate_exercise _ _) _ _ => unfold generate_exercise
  | |- wp (handle_callback_query _ _ _) _ _ => unfold handle_callback_query
  | |- wp (handle_text_message _ _ _) _ _ => unfold handle_text_message
  | |- wp start_command _ _ => unfold start_command
  | |- wp (asesoria_command _) _ _ => unfold asesoria_command
  | |- wp (ejemplo_command _) _ _ => unfold ejemplo_command
  | |- wp (prueba_command _) _ _ => unfold prueba_command
  | |- wp (dudas_command _) _ _ => unfold dudas_command
  | |- wp (encuesta_command _) _ _ => unfold encuesta_command
  | |- wp _ _ _ => eapply wp_prim; [reflexivity|]; wp_simpl
  end.

Ltac wp_all := repeat wp_step.

(** ** The reset command *)

Lemma start_resets E up s : step E s (Command Cmd.start, up) = default_state.
Proof.
  unfold step. cbn [fst snd]. apply handle_event_wp.
  unfold handler, enter. wp_all. reflexivity.
Qed.

(** C8. In every mode and for every user record, [/start] persists the
    default idle record (mode idle, no last topic, no exercise); sending
    it again, any number of times, persists the same record. *)
Theorem start_is_idempotent :
  forall E s up ups,
    step E s (Command Cmd.start, up) = default_state
    /\ run_events E (map (fun u => (Command Cmd.start, u)) (up :: ups)) s
       = default_state
    /\ forall up', step E (step E s (Command Cmd.start, up)) (Command Cmd.start, up')
                   = step E s (Command Cmd.start, up).
Proof.
  intros E s up ups. split; [apply start_resets|]. split.
  - revert s up. induction ups as [|u ups IH]; intros s up.
    + unfold run_events. cbn [map fold_left]. apply start_resets.
    + change (run_events E (map (fun u => (Command Cmd.start, u)) (u :: ups))
                (step E s (Command Cmd.start, up)) = default_state).
      apply IH.
  - intros up'. now rewrite !start_resets.
Qed.

(** ** Button presses *)

Lemma press_retry E up s :
  step E s (ButtonPress Action.resolution_retry, up)
  = set_bot_state Mode.exercise_answer s.
Proof.
  unfold step. cbn [fst snd]. apply handle_event_wp.
  unfold handler, enter, handle_callback_query.
  wp_all. destruct (db E); destruct s; reflexivity.
Qed.

Lemma press_menu E up s a :
  a = Action.main_menu \/ a = Action.deepen_no ->
  step E s (ButtonPress a, up)
  = set_last_asesoria_topic None (set_bot_state Mode.idle s).
Proof.
  intros Ha. unfold step. cbn [fst snd]. apply handle_event_wp.
  unfold handler, enter, handle_callback_query.
  assert (H1 : startswith (utf8 "topic_") a = false) by (destruct Ha; subst; reflexivity).
  assert (H2 : startswith (utf8 "diff_") a = false) by (destruct Ha; subst; reflexivity).
  assert (H3 : PyStr.eqb a (utf8 "deepen_no") || PyStr.eqb a (utf8 "main_menu") = true)
    by (destruct Ha; subst; reflexivity).
  wp_all. destruct (db E); destruct s; reflexivity.
Qed.

Lemma press_any E up s m a :
  agree_but_mode (bot_state s) m
    (handle_event E up (ButtonPress a) s)
    (handle_event E up (ButtonPress a) (set_bot_state m s)).
Proof.
  apply handle_event_wp. apply handle_event_wp.
  unfold handler, enter.
  wp_all.
  all: unfold agree_but_mode; wp_simpl.
  all: destruct (db E); cbn [bot_state last_asesoria_topic current_exercise];
    repeat split; auto.
Qed.

(** C10. The transition run by a button press is chosen by the action
    string alone: [resolution_retry] sets the mode to the answer mode from
    any mode, [main_menu] and [deepen_no] set it to idle and clear the last
    topic from any mode, and for every action the press does the same in
    two records that differ in their mode only. *)
Theorem button_press_ignores_mode :
  forall E up s,
    step E s (ButtonPress Action.resolution_retry, up)
    = {| bot_state := Mode.exercise_answer;
         last_asesoria_topic := last_asesoria_topic s;
         current_exercise := current_exercise s |}
    /\ step E s (ButtonPress Action.main_menu, up)
       = {| bot_state := Mode.idle;
            last_asesoria_topic := None;
            current_exercise := current_exercise s |}
    /\ step E s (ButtonPress Action.deepen_no, up)
       = {| bot_state := Mode.idle;
            last_asesoria_topic := None;
            current_exercise := current_exercise s |}
    /\ step E default_state (ButtonPress Action.resolution_retry, up)
       = {| bot_state := Mode.exercise_answer;
            last_asesoria_topic := None;
            current_exercise := None |}
    /\ forall a m,
         agree_but_mode (bot_state s) m
           (handle_event E up (ButtonPress a) s)
           (handle_event E up (ButtonPress a)
              {| bot_state := m;
                 last_asesoria_topic := last_asesoria_topic s;
                 current_exercise := current_exercise s |}).
Proof.
  intros E up s.
  split; [rewrite press_retry; reflexivity|].
  split; [rewrite press_menu by (now left); reflexivity|].
  split; [rewrite press_menu by (now right); reflexivity|].
  split; [rewrite press_retry; reflexivity|].
  intros a m. exact (press_any E up s m a).
Qed.

(** ** The gateway *)

Lemma failure_strings_differ :
  Msg.http_error <> Msg.connect_error
  /\ Msg.http_error <> Msg.no_answer
  /\ Msg.connect_error <> Msg.no_answer.
Proof. repeat split; discriminate. Qed.

(** C7, as the specification has it, fails: a structured answer that is
    not JSON is malformed, a failed request is unreachable, and the two
    get the same message. *)
Lemma parse_failure_reads_as_unreachable :
  let E := deployment true in
  let broken := Answer (Some (utf8 "{")) None in
  unreachable OtherError = true
  /\ malformed broken true = true
  /\ call_gemini_api E OtherError true = call_gemini_api E broken true.
Proof. repeat split. Qed.

(** C7, amended. A call to the gateway always returns: an HTTP status
    error gives one failure string, every other exception of the request,
    the failed parse of a structured answer among them, gives a second, an
    empty or missing answer gives a third, and the three differ; a
    structured answer that does not parse gives that string and no object. *)
Theorem gateway_failures_are_strings :
  forall E is_structured,
    GEMINI_API_KEY E = true ->
    call_gemini_api E StatusError is_structured = VStr Msg.http_error
    /\ call_gemini_api E OtherError is_structured = VStr Msg.connect_error
    /\ (forall loads, call_gemini_api E (Answer None loads) is_structured
                      = VStr Msg.no_answer)
    /\ (forall loads, call_gemini_api E (Answer (Some []) loads) is_structured
                      = VStr Msg.no_answer)
    /\ (forall c text, call_gemini_api E (Answer (Some (c :: text)) None) true
                       = VStr Msg.connect_error)
    /\ (forall up, unreachable up = true \/ malformed up is_structured = true ->
                   exists f, call_gemini_api E up is_structured = VStr f
                             /\ In f failure_strings)
    /\ Msg.http_error <> Msg.connect_error
    /\ Msg.http_error <> Msg.no_answer
    /\ Msg.connect_error <> Msg.no_answer.
Proof.
  intros E b HK. unfold call_gemini_api. rewrite HK. cbn [negb].
  repeat split; try discriminate.
  intros up H. unfold failure_strings.
  destruct up as [| |[[|c t]|] [v|]]; cbn in H; destruct H as [H|H];
    try discriminate H; subst; eauto 8 using in_eq, in_cons.
Qed.

Lemma gateway_failures_are_strings_witness :
  call_gemini_api (deployment false) StatusError true = VStr Msg.http_error
  /\ call_gemini_api (deployment false) (Answer (Some (utf8 "{")) None) true
     = VStr Msg.connect_error.
Proof.
  destruct (gateway_failures_are_strings (deployment false) true eq_refl)
    as (H1 & _ & _ & _ & H5 & _).
  split; [exact H1 | exact (H5 _ _)].
Defined.

(** Without a key the gateway answers with a fourth string and sends
    nothing. *)
Lemma gateway_not_configured E up is_structured :
  GEMINI_API_KEY E = false ->
  call_gemini_api E up is_structured = VStr Msg.not_configured.
Proof. intros H. unfold call_gemini_api. now rewrite H. Qed.

(** An unstructured call returns a string. *)
Lemma gateway_text E up : exists v, call_gemini_api E up false = VStr v.
Proof.
  unfold call_gemini_api.
  destruct (negb (GEMINI_API_KEY E)); [eauto|].
  destruct up as [| |[[|c t]|] l]; eauto.
Qed.

(** The gateway has failed: no key, an error, or nothing to read. *)
Lemma gateway_failed E up :
  GEMINI_API_KEY E = false \/ unreachable up = true \/ malformed up false = true ->
  exists f, call_gemini_api E up false = VStr f /\ In f failure_strings.
Proof.
  unfold call_gemini_api, failure_strings. intros H.
  destruct (GEMINI_API_KEY E); cbn [negb]; [|eauto using in_eq].
  destruct H as [H|H]; [discriminate|].
  destruct up as [| |[[|c t]|] [v|]]; cbn in H; destruct H as [H|H];
    try discriminate H; eauto 8 using in_eq, in_cons.
Qed.

(** ** Substrings *)

Lemma startswith_spec p s :
  startswith p s = true <-> exists post, s = p ++ post.
Proof.
  revert s. induction p as [|a p IH]; intros s; cbn.
  - split; eauto.
  - destruct s as [|b s].
    + split; [discriminate | intros [post H]; discriminate H].
    + rewrite andb_true_iff, N.eqb_eq, IH. split.
      * intros [-> [post ->]]. eauto.
      * intros [post H]. injection H as -> ->. eauto.
Qed.

Lemma contains_spec k s :
  contains k s = true <-> exists pre post, s = pre ++ k ++ post.
Proof.
  induction s as [|c s IH]; cbn [contains]; rewrite orb_true_iff, startswith_spec.
  - split.
    + intros [[post H]|H]; [|discriminate H]. exists [], post. exact H.
    + intros (pre & post & H). left.
      destruct pre; [eauto | discriminate H].
  - rewrite IH. split.
    + intros [[post H]|(pre & post & H)].
      * exists [], post. exact H.
      * exists (c :: pre), post. now rewrite H.
    + intros (pre & post & H). destruct pre as [|c' pre].
      * left. eauto.
      * right. injection H as _ H. eauto.
Qed.

(** ** Verifying an answer *)

Lemma is_positive_spec E v :
  is_positive E v = true <->
  exists k pre post,
    In k positive_keywords /\ lower (lower_wide E) v = pre ++ k ++ post.
Proof.
  unfold is_positive. rewrite existsb_exists. split.
  - intros (k & Hk & H). apply contains_spec in H as (pre & post & H). eauto.
  - intros (k & pre & post & Hk & H). exists k. split; [exact Hk|].
    apply contains_spec. eauto.
Qed.

Lemma answer_is_judged E up s ex text v :
  bot_state s = Mode.exercise_answer ->
  current_exercise s = Some ex ->
  call_gemini_api E up false = VStr v ->
  step E s (Text text, up)
  = set_bot_state (if is_positive E v then Mode.next_action
                   else Mode.exercise_resolution) s.
Proof.
  intros Hm Hex Hv. unfold step. cbn [fst snd]. apply handle_event_wp.
  destruct s as [m lt ce]. cbn in Hm, Hex. subst m ce.
  unfold handler, enter. wp_all.
  all: destruct (db E); reflexivity.
Qed.

(** C4. For a stored exercise and an answer received in the answer mode,
    the verdict is correct exactly when the lowercased feedback of the
    gateway contains one of the six keywords; a correct verdict leads to
    the next-action mode and any other to the resolution mode.  The
    feedback ["¡Excelente trabajo!"] is correct, ["Casi, revisa el signo"]
    is not. *)
Theorem verdict_follows_keywords :
  forall E up s ex text,
    bot_state s = Mode.exercise_answer ->
    current_exercise s = Some ex ->
    exists feedback,
      call_gemini_api E up false = VStr feedback
      /\ (is_positive E feedback = true <->
          exists k pre post,
            In k positive_keywords
            /\ lower (lower_wide E) feedback = pre ++ k ++ post)
      /\ (is_positive E feedback = true ->
          step E s (Text text, up)
          = {| bot_state := Mode.next_action;
               last_asesoria_topic := last_asesoria_topic s;
               current_exercise := current_exercise s |})
      /\ (is_positive E feedback = false ->
          step E s (Text text, up)
          = {| bot_state := Mode.exercise_resolution;
               last_asesoria_topic := last_asesoria_topic s;
               current_exercise := current_exercise s |})
      /\ positive_keywords
         = map utf8 ["correcto"; "exacto"; "perfecto"; "muy bien"; "excelente";
                     "felicidades"]%string
      /\ is_positive E (utf8 "¡Excelente trabajo!") = true
      /\ is_positive E (utf8 "Casi, revisa el signo") = false.
Proof.
  intros E up s ex text Hm Hex.
  destruct (gateway_text E up) as [v Hv]. exists v.
  split; [exact Hv|]. split; [apply is_positive_spec|].
  pose proof (answer_is_judged E up s ex text v Hm Hex Hv) as H.
  split; [intros Hp; rewrite Hp in H; rewrite H; reflexivity|].
  split; [intros Hp; rewrite Hp in H; rewrite H; reflexivity|].
  repeat split.
Qed.

Lemma verdict_follows_keywords_witness :
  exists feedback,
    call_gemini_api (deployment true)
                    (Answer (Some (utf8 "¡Excelente trabajo!")) None) false
    = VStr feedback
    /\ bot_state answering = Mode.exercise_answer
    /\ bot_state (step (deployment true) answering
                     (Text (utf8 "2x"), Answer (Some (utf8 "¡Excelente trabajo!")) None))
       = Mode.next_action.
Proof.
  destruct (verdict_follows_keywords (deployment true)
              (Answer (Some (utf8 "¡Excelente trabajo!")) None)
              answering _ (utf8 "2x") eq_refl eq_refl)
    as (v & Hv & _ & Hyes & _).
  exists v. split; [exact Hv|]. split; [reflexivity|].
  rewrite Hyes; [reflexivity|].
  injection Hv as <-. reflexivity.
Defined.

(** C9. When the gateway fails while an answer is verified, its failure
    string is judged like feedback; none of the four failure strings holds
    a keyword, so the answer counts as incorrect and the mode becomes the
    resolution mode. *)
Theorem gateway_failure_counts_as_incorrect :
  forall E up s ex text,
    bot_state s = Mode.exercise_answer ->
    current_exercise s = Some ex ->
    GEMINI_API_KEY E = false \/ unreachable up = true \/ malformed up false = true ->
    exists f,
      call_gemini_api E up false = VStr f
      /\ In f failure_strings
      /\ is_positive E f = false
      /\ step E s (Text text, up)
         = {| bot_state := Mode.exercise_resolution;
              last_asesoria_topic := last_asesoria_topic s;
              current_exercise := current_exercise s |}
      /\ gateway_calls (handle_event E up (Text text) s) <> [].
Proof.
  intros E up s ex text Hm Hex Hfail.
  destruct (gateway_failed E up Hfail) as (f & Hf & Hin). exists f.
  assert (Hneg : is_positive E f = false).
  { unfold failure_strings in Hin. cbn [In] in Hin.
    destruct Hin as [<-|[<-|[<-|[<-|[]]]]]; reflexivity. }
  split; [exact Hf|]. split; [exact Hin|]. split; [exact Hneg|]. split.
  - rewrite (answer_is_judged E up s ex text f Hm Hex Hf). rewrite Hneg.
    reflexivity.
  - apply handle_event_wp.
    destruct s as [m lt ce]. cbn in Hm, Hex. subst m ce.
    unfold handler, enter. wp_all.
    all: intros H; now apply app_eq_nil in H as [_ H].
Qed.

Lemma gateway_failure_counts_as_incorrect_witness :
  exists f,
    call_gemini_api (deployment false) StatusError false = VStr f
    /\ bot_state answering = Mode.exercise_answer
    /\ bot_state (step (deployment false) answering (Text (utf8 "2x"), StatusError))
       = Mode.exercise_resolution.
Proof.
  destruct (gateway_failure_counts_as_incorrect (deployment false) StatusError
              answering _ (utf8 "2x") eq_refl eq_refl
              (or_intror (or_introl eq_refl)))
    as (f & Hf & _ & _ & Hs & _).
  exists f. split; [exact Hf|]. split; [reflexivity|].
  rewrite Hs. reflexivity.
Defined.

(** ** Dictionaries with string keys *)

Lemma eqb_refl s : PyStr.eqb s s = true.
Proof. induction s as [|c s IH]; cbn; [|rewrite N.eqb_refl]; auto. Qed.

Lemma eqb_eq s t : PyStr.eqb s t = true <-> s = t.
Proof.
  split; [|intros ->; apply eqb_refl].
  revert t. induction s as [|a s IH]; intros [|b t]; cbn; try discriminate; auto.
  rewrite andb_true_iff, N.eqb_eq. intros [-> H]. f_equal. auto.
Qed.

Lemma key_eq_str k s : Py.key_eq k (VStr s) = true -> k = VStr s.
Proof.
  destruct k as [| b | z | [| |] | t | l | d]; cbn; try discriminate.
  intros H. apply eqb_eq in H. now subst.
Qed.

Lemma dict_get_set_same s v d :
  Py.dict_get (VStr s) (Py.dict_set (VStr s) v d) = Some v.
Proof.
  induction d as [|[k x] d IH]; cbn.
  - now rewrite eqb_refl.
  - destruct (Py.key_eq k (VStr s)) eqn:Hk; cbn; now rewrite Hk.
Qed.

Lemma dict_get_set_other s t v d :
  PyStr.eqb t s = false ->
  Py.dict_get (VStr s) (Py.dict_set (VStr t) v d) = Py.dict_get (VStr s) d.
Proof.
  intros Hts. induction d as [|[k x] d IH]; cbn.
  - now rewrite Hts.
  - destruct (Py.key_eq k (VStr t)) eqn:Hk; cbn.
    + apply key_eq_str in Hk. subst k. cbn. now rewrite Hts.
    + now rewrite IH.
Qed.

(** ** Exercise generation *)

(** The two failure strings that hold the word [problem], inside
    [problema]. *)
Lemma problem_in_failure_string :
  contains (utf8 "problem") Msg.http_error = true
  /\ contains (utf8 "problem") Msg.connect_error = true
  /\ contains (utf8 "problem") Msg.no_answer = false
  /\ contains (utf8 "problem") Msg.not_configured = false.
Proof. repeat split. Qed.

(** C1. After the topic was chosen, a press of [diff_<n>] whose gateway
    call ends in an HTTP error, a transport error or a structured answer
    that does not parse: [generate_exercise] takes the failure string for
    an exercise, the handler raises [ValueError], the record is left in
    the difficulty mode (with a database) or in the answer mode (without),
    not in idle, and the user gets the general apology instead of the
    advice to retry. *)
Theorem generation_failure_is_not_idle :
  forall E s d topic n z up,
    GEMINI_API_KEY E = true ->
    bot_state s = Mode.exercise_difficulty ->
    current_exercise s = Some d ->
    Py.dict_get (VStr (utf8 "topic")) d = Some topic ->
    n <> [] ->
    Py.digits 0 n = Some z ->
    up = StatusError \/ up = OtherError
    \/ (exists c text, up = Answer (Some (c :: text)) None) ->
    let ev := ButtonPress (Action.diff_ ++ n) in
    let w := handle_event E up ev s in
    raised E up ev s = Some ValueError
    /\ bot_state (store w)
       = (if db E then Mode.exercise_difficulty else Mode.exercise_answer)
    /\ bot_state (store w) <> Mode.idle
    /\ ~ In (Reply Msg.retry_exercise None) (outbox w)
    /\ In (Reply Msg.unexpected None) (outbox w).
Proof.
  intros E s d topic n z up HK Hm Hex Htopic Hn Hz Hup ev w.
  assert (Hcall : call_gemini_api E up true = VStr Msg.http_error
                  \/ call_gemini_api E up true = VStr Msg.connect_error).
  { unfold call_gemini_api. rewrite HK. cbn [negb].
    destruct Hup as [->|[->|(c & t & ->)]]; auto. }
  pose proof (dict_get_set_same (utf8 "difficulty") (VInt z) d) as Hdiff.
  pose proof (dict_get_set_other (utf8 "topic") (utf8 "difficulty") (VInt z) d eq_refl)
    as Htop.
  rewrite Htopic in Htop.
  destruct s as [m lt ce]. cbn in Hm, Hex. subst m ce.
  destruct n as [|c n]; [congruence|]. clear Hn.
  subst ev w. cbv zeta. split.
  - apply raised_wp. unfold handler, enter.
    destruct Hcall as [Hc|Hc]; wp_all; reflexivity.
  - apply handle_event_wp. unfold handler, enter.
    destruct Hcall as [Hc|Hc]; wp_all.
    all: destruct (db E); cbn [bot_state]; repeat split; try discriminate.
    all: rewrite ?in_app_iff; cbn [In]; intuition discriminate.
Qed.

Lemma generation_failure_is_not_idle_witness :
  raised (deployment false) StatusError (ButtonPress (utf8 "diff_3")) chose_topic
  = Some ValueError
  /\ bot_state (store (handle_event (deployment false) StatusError
                         (ButtonPress (utf8 "diff_3")) chose_topic))
     = Mode.exercise_answer.
Proof.
  destruct (generation_failure_is_not_idle (deployment false) chose_topic
              polinomios (VStr (utf8 "Polinomios")) (utf8 "3") 3 StatusError
              eq_refl eq_refl eq_refl eq_refl
              ltac:(discriminate) eq_refl (or_introl eq_refl))
    as (H1 & H2 & _).
  split; [exact H1 | exact H2].
Defined.

(** The branch meant for failures is taken when the answer is empty or
    the key is missing: the mode becomes idle and the user is told to
    retry. *)
Lemma generation_without_answer_is_idle E s d topic n z up :
  bot_state s = Mode.exercise_difficulty ->
  current_exercise s = Some d ->
  Py.dict_get (VStr (utf8 "topic")) d = Some topic ->
  n <> [] ->
  Py.digits 0 n = Some z ->
  GEMINI_API_KEY E = false \/ malformed up false = true ->
  let w := handle_event E up (ButtonPress (Action.diff_ ++ n)) s in
  bot_state (store w) = Mode.idle
  /\ In (Reply Msg.retry_exercise None) (outbox w).
Proof.
  intros Hm Hex Htopic Hn Hz Hup w.
  assert (Hcall : call_gemini_api E up true = VStr Msg.no_answer
                  \/ call_gemini_api E up true = VStr Msg.not_configured).
  { unfold call_gemini_api.
    destruct (GEMINI_API_KEY E); cbn [negb]; [|auto].
    destruct Hup as [Hup|Hup]; [discriminate|].
    destruct up as [| |[[|c t]|] [v|]]; try discriminate Hup; auto. }
  pose proof (dict_get_set_same (utf8 "difficulty") (VInt z) d) as Hdiff.
  pose proof (dict_get_set_other (utf8 "topic") (utf8 "difficulty") (VInt z) d eq_refl)
    as Htop.
  rewrite Htopic in Htop.
  destruct s as [m lt ce]. cbn in Hm, Hex. subst m ce.
  destruct n as [|c n]; [congruence|]. clear Hn.
  subst w. apply handle_event_wp. unfold handler, enter.
  destruct Hcall as [Hc|Hc]; wp_all.
  all: destruct (db E); cbn [bot_state]; split; try reflexivity.
  all: rewrite ?in_app_iff; cbn [In]; auto.
Qed.

(** ** Events without a transition *)

(** C3, as the specification has it, fails: the table has no row for
    [resolution_retry] in the idle mode, and the press changes the mode. *)
Lemma press_outside_table_changes_mode :
  table_defines (bot_state default_state) (ButtonPress Action.resolution_retry) = false
  /\ step (deployment true) default_state
          (ButtonPress Action.resolution_retry, StatusError)
     <> default_state.
Proof.
  split; [reflexivity|]. rewrite press_retry. discriminate.
Qed.

(** Commands are looked up in lowercase: [/START] resets the record as
    [/start] does. *)
Lemma start_in_capitals E up s :
  step E s (Command (utf8 "START"), up) = default_state.
Proof.
  unfold step. cbn [fst snd]. apply handle_event_wp.
  unfold handler, enter. wp_all. reflexivity.
Qed.

(** C3, amended. An event for which the handlers have no branch (free
    text in a mode without a text transition, a command that in lowercase
    is not one of the six, a button whose action is none of the known
    names or prefixes) leaves the persisted record as it was, calls the
    gateway not at all and raises nothing.  Buttons are told apart by
    their action, not by the mode they are pressed in. *)
Theorem unhandled_event_changes_nothing :
  forall E up s ev,
    branch_exists (bot_state s) (as_dispatched E ev) = false ->
    let w := handle_event E up ev s in
    store w = s /\ gateway_calls w = [] /\ raised E up ev s = None.
Proof.
  intros E up s ev H. cbv zeta.
  destruct ev as [name|body|a];
    cbn [as_dispatched branch_exists among existsb commands text_modes] in H;
    unfold Action.topic_, Action.diff_, Action.deepen_no, Action.main_menu,
      Action.next_action_similar, Action.resolution_retry, Action.resolution_solve in H;
    repeat match goal with
           | H : _ || _ = false |- _ => apply orb_false_iff in H; destruct H
           end.
  - split; [|split].
    + apply handle_event_wp. unfold handler, enter. wp_all. reflexivity.
    + apply handle_event_wp. unfold handler, enter. wp_all. reflexivity.
    + apply raised_wp. unfold handler, enter. wp_all. reflexivity.
  - split; [|split].
    + apply handle_event_wp. unfold handler, enter. wp_all. reflexivity.
    + apply handle_event_wp. unfold handler, enter. wp_all. reflexivity.
    + apply raised_wp. unfold handler, enter. wp_all. reflexivity.
  - split; [|split].
    + apply handle_event_wp. unfold handler, enter. wp_all. reflexivity.
    + apply handle_event_wp. unfold handler, enter. wp_all. reflexivity.
    + apply raised_wp. unfold handler, enter. wp_all. reflexivity.
Qed.

Lemma unhandled_event_changes_nothing_witness :
  store (handle_event (deployment true) StatusError (Command (utf8 "Ayuda")) answering)
  = answering
  /\ gateway_calls (handle_event (deployment true) StatusError (Command (utf8 "Ayuda"))
                      answering) = [].
Proof.
  destruct (unhandled_event_changes_nothing (deployment true) StatusError
              answering (Command (utf8 "Ayuda")) eq_refl) as (H1 & H2 & _).
  split; [exact H1 | exact H2].
Defined.

(** ** The exercise of the exercise modes *)

Ltac kept_done :=
  unfold exercise_kept, has_exercise in *;
  cbn [bot_state current_exercise last_asesoria_topic
       set_bot_state set_last_asesoria_topic set_current_exercise] in *;
  try assumption;
  let Hm := fresh "Hm" in
  intros Hm;
  first
    [ reflexivity
    | solve [auto]
    | vm_compute in Hm; discriminate Hm
    | match goal with
      | H : current_exercise _ = Some _ |- _ => rewrite H; reflexivity
      end ].

Lemma command_keeps_exercise E up s name :
  exercise_kept s -> exercise_kept (store (handle_event E up (Command name) s)).
Proof.
  intros Hs. apply handle_event_wp. unfold handler, enter. wp_all.
  all: destruct (db E); kept_done.
Qed.

Lemma text_keeps_exercise E up s body :
  exercise_kept s -> exercise_kept (store (handle_event E up (Text body) s)).
Proof.
  intros Hs. apply handle_event_wp. unfold handler, enter. wp_all.
  all: destruct (db E); kept_done.
Qed.

Lemma button_keeps_exercise E up s a :
  exercise_kept s -> exercise_kept (store (handle_event E up (ButtonPress a) s)).
Proof.
  intros Hs. apply handle_event_wp. unfold handler, enter. wp_all.
  all: destruct (db E); kept_done.
Qed.

Lemma step_keeps_exercise E s x : exercise_kept s -> exercise_kept (step E s x).
Proof.
  destruct x as [[name|body|a] up]; unfold step; cbn [fst snd].
  - apply command_keeps_exercise.
  - apply text_keeps_exercise.
  - apply button_keeps_exercise.
Qed.

Lemma run_keeps_exercise E xs s :
  exercise_kept s -> exercise_kept (run_events E xs s).
Proof.
  revert s. induction xs as [|x xs IH]; intros s Hs; [exact Hs|].
  cbn [run_events fold_left]. apply IH, step_keeps_exercise, Hs.
Qed.

(** C2, as the specification has it, fails: a press of [resolution_retry]
    on the initial record leads to the answer mode without an exercise. *)
Lemma retry_reaches_answer_mode_without_exercise :
  let s := run_events (deployment true)
                      [(ButtonPress Action.resolution_retry, StatusError)]
                      default_state in
  among (bot_state s) exercise_modes = true /\ current_exercise s = None.
Proof. split; reflexivity. Qed.

(** C2, amended. In every record reachable from the initial idle record
    by handled events, the exercise is present whenever the mode is the
    difficulty mode, the resolution mode or the next-action mode.  The
    answer mode is left out: [resolution_retry] enters it without looking
    at the record. *)
Theorem exercise_present_in_guarded_modes :
  forall E xs,
    let s := run_events E xs default_state in
    among (bot_state s) guarded_modes = true -> current_exercise s <> None.
Proof.
  intros E xs s Hm.
  assert (H : exercise_kept s).
  { apply run_keeps_exercise. intros H. discriminate H. }
  specialize (H Hm). unfold has_exercise in H.
  destruct (current_exercise s); [discriminate | discriminate H].
Qed.

Lemma exercise_present_in_guarded_modes_witness :
  current_exercise
    (run_events (deployment true)
                [(ButtonPress (utf8 "topic_Polinomios"), StatusError)] default_state)
  <> None.
Proof.
  apply (exercise_present_in_guarded_modes (deployment true)
           [(ButtonPress (utf8 "topic_Polinomios"), StatusError)]).
  reflexivity.
Defined.

(** ** The doubt pattern *)

Module DoubtFacts.
Import DoubtPattern.









(** *** What a text appended after a space cannot complete *)

Section Appended.
Variable s' : str.
Let s : str := 32%N :: s'.





(** The appended text is itself no ending of the pattern. *)
Hypothesis s_no_word : word nivel (lstrip s') = None
                       \/ exists r, word nivel (lstrip s') = Some r
                                    /\ alternatives levels (lstrip r) = None.
Hypothesis s_no_level : alternatives levels (lstrip s') = None.
Hypothesis s_no_match : search s = None.



End Appended.


End DoubtFacts.




(** ** Message delivery *)

Module DeliveryFacts.

(** *** Stripping *)

Lemma lstrip_len s : len (lstrip s) <= len s.
Proof.
  unfold len. induction s as [|c s IH]; cbn [lstrip]; [lia|].
  destruct (isspace c); cbn [List.length] in *; lia.
Qed.

Lemma strip_len s : len (strip s) <= len s.
Proof.
  unfold strip, rstrip. pose proof (lstrip_len s) as H1.
  pose proof (lstrip_len (rev (lstrip s))) as H2.
  unfold len in *. rewrite length_rev in *. lia.
Qed.

Lemma lstrip_snoc_space l c :
  isspace c = true ->
  lstrip (l ++ [c]) = match lstrip l with
                      | [] => []
                      | x => x ++ [c]
                      end.
Proof.
  intros Hc. induction l as [|a l IH]; cbn [app lstrip].
  - now rewrite Hc.
  - destruct (isspace a); [exact IH | reflexivity].
Qed.

Lemma lstrip_snoc_letter l c :
  isspace c = false -> lstrip (l ++ [c]) = lstrip l ++ [c].
Proof.
  intros Hc. induction l as [|a l IH]; cbn [app lstrip].
  - now rewrite Hc.
  - destruct (isspace a); [exact IH | reflexivity].
Qed.

Lemma rstrip_snoc x c :
  rstrip (x ++ [c]) = if isspace c then rstrip x else x ++ [c].
Proof.
  unfold rstrip. rewrite rev_unit. cbn [lstrip].
  destruct (isspace c); [reflexivity|].
  cbn [rev]. now rewrite rev_involutive.
Qed.

Lemma rstrip_cons_letter c r :
  isspace c = false -> rstrip (c :: r) = c :: rstrip r.
Proof.
  intros Hc. unfold rstrip. cbn [rev].
  rewrite (lstrip_snoc_letter _ c Hc), rev_unit. reflexivity.
Qed.

Lemma lstrip_head s :
  lstrip s = [] \/ exists c r, lstrip s = c :: r /\ isspace c = false.
Proof.
  induction s as [|c s IH]; cbn [lstrip]; [now left|].
  destruct (isspace c) eqn:Hc; [exact IH | right; eauto].
Qed.

Lemma strip_head s :
  strip s = [] \/ exists c r, strip s = c :: r /\ isspace c = false.
Proof.
  unfold strip. destruct (lstrip_head s) as [->|(c & r & -> & Hc)].
  - now left.
  - right. rewrite (rstrip_cons_letter c r Hc). eauto.
Qed.

Lemma strip_snoc_space l c : isspace c = true -> strip (l ++ [c]) = strip l.
Proof.
  intros Hc. unfold strip. rewrite (lstrip_snoc_space l c Hc).
  destruct (lstrip l) as [|a x]; [reflexivity|].
  now rewrite rstrip_snoc, Hc.
Qed.

Lemma strip_cons_space l c : isspace c = true -> strip (c :: l) = strip l.
Proof. intros Hc. unfold strip. cbn [lstrip]. now rewrite Hc. Qed.

Lemma blank_letter_first c r : isspace c = false -> blank (c :: r) = false.
Proof.
  intros Hc. unfold blank, strip. cbn [lstrip]. rewrite Hc.
  now rewrite (rstrip_cons_letter c r Hc).
Qed.

(** *** Lines *)

Lemma split_nl_cons s : exists l ls, split_nl s = l :: ls.
Proof.
  destruct s as [|c s]; cbn [split_nl]; [eauto|].
  destruct (c =? LF)%N; [eauto|]. destruct (split_nl s); eauto.
Qed.

Lemma split_nl_snoc q c :
  split_nl (q ++ [c])
  = if (c =? LF)%N then split_nl q ++ [[]]
    else removelast (split_nl q) ++ [last (split_nl q) [] ++ [c]].
Proof.
  induction q as [|a q IH].
  - cbn. destruct (c =? LF)%N; reflexivity.
  - cbn [app split_nl]. rewrite IH. clear IH.
    destruct (split_nl_cons q) as (l0 & ls0 & Hq). rewrite Hq.
    destruct (a =? LF)%N, (c =? LF)%N; try reflexivity.
    destruct ls0; reflexivity.
Qed.

Lemma line_without_LF s : Forall (fun l => ~ In LF l) (split_nl s).
Proof.
  induction s as [|c s IH]; cbn [split_nl]; [repeat constructor; auto|].
  destruct (N.eqb_spec c LF) as [->|Hc]; [constructor; auto|].
  destruct (split_nl s) as [|l ls]; [repeat constructor; cbn; intuition|].
  inversion IH; subst. constructor; [|assumption].
  cbn. intuition.
Qed.

Lemma split_nl_line l : ~ In LF l -> split_nl l = [l].
Proof.
  induction l as [|c l IH]; intros Hl; [reflexivity|].
  cbn [split_nl]. destruct (N.eqb_spec c LF) as [->|_].
  - exfalso. apply Hl. now left.
  - rewrite IH; [reflexivity|]. intros H. apply Hl. now right.
Qed.

Lemma split_nl_line_app l rest :
  ~ In LF l -> split_nl (l ++ nl ++ rest) = l :: split_nl rest.
Proof.
  induction l as [|c l IH]; intros Hl.
  - reflexivity.
  - cbn [app split_nl]. destruct (N.eqb_spec c LF) as [->|_].
    + exfalso. apply Hl. now left.
    + change (l ++ LF :: rest) with (l ++ nl ++ rest).
      rewrite IH; [reflexivity|]. intros H. apply Hl. now right.
Qed.

Lemma split_nl_join g :
  g <> [] -> Forall (fun l => ~ In LF l) g -> split_nl (join_nl g) = g.
Proof.
  induction g as [|l g IH]; [congruence|]. intros _ Hg.
  inversion Hg as [|? ? Hl Hg']; subst.
  destruct g as [|l' g].
  - cbn [join_nl]. now apply split_nl_line.
  - change (join_nl (l :: l' :: g)) with (l ++ nl ++ join_nl (l' :: g)).
    rewrite (split_nl_line_app l _ Hl), IH; [reflexivity | discriminate | assumption].
Qed.

Lemma join_nl_snoc g l : g <> [] -> join_nl (g ++ [l]) = join_nl g ++ nl ++ l.
Proof.
  induction g as [|a g IH]; [congruence|]. intros _.
  destruct g as [|b g].
  - reflexivity.
  - change (join_nl ((a :: b :: g) ++ [l]))
      with (a ++ nl ++ join_nl ((b :: g) ++ [l])).
    rewrite IH by discriminate.
    change (join_nl (a :: b :: g)) with (a ++ nl ++ join_nl (b :: g)).
    now rewrite <- !app_assoc.
Qed.

(** *** Non-blank lines under [strip] *)

Lemma nonblank_lines_app ls ls' :
  nonblank_lines (ls ++ ls') = nonblank_lines ls ++ nonblank_lines ls'.
Proof. apply filter_app. Qed.

Lemma stripped_lines_lstrip p : stripped_lines (lstrip p) = stripped_lines p.
Proof.
  induction p as [|c p IH]; [reflexivity|].
  cbn [lstrip]. destruct (isspace c) eqn:Hc; [|reflexivity].
  rewrite IH. unfold stripped_lines. cbn [split_nl].
  destruct (c =? LF)%N; [reflexivity|].
  destruct (split_nl_cons p) as (l & ls & ->).
  unfold nonblank_lines. cbn [filter]. unfold blank.
  rewrite (strip_cons_space l c Hc).
  destruct (strip l) eqn:Hl; cbn [negb map]; [reflexivity|].
  now rewrite (strip_cons_space l c Hc), Hl.
Qed.

Lemma stripped_lines_snoc_space q c :
  isspace c = true -> stripped_lines (q ++ [c]) = stripped_lines q.
Proof.
  intros Hc. unfold stripped_lines. rewrite split_nl_snoc.
  destruct (c =? LF)%N.
  - rewrite nonblank_lines_app, map_app. cbn. now rewrite app_nil_r.
  - destruct (split_nl_cons q) as (l0 & ls0 & Hq).
    rewrite (app_removelast_last [] (l := split_nl q)) at 3 by (rewrite Hq; discriminate).
    rewrite !nonblank_lines_app, !map_app. f_equal.
    unfold nonblank_lines. cbn [filter]. unfold blank.
    rewrite (strip_snoc_space _ c Hc).
    destruct (strip (last (split_nl q) [])) eqn:Hl; cbn [negb map]; [reflexivity|].
    now rewrite (strip_snoc_space _ c Hc), Hl.
Qed.

Lemma stripped_lines_rstrip p : stripped_lines (rstrip p) = stripped_lines p.
Proof.
  induction p as [|c p IH] using rev_ind; [reflexivity|].
  rewrite rstrip_snoc. destruct (isspace c) eqn:Hc; [|reflexivity].
  now rewrite IH, (stripped_lines_snoc_space p c Hc).
Qed.

Lemma stripped_lines_strip p : stripped_lines (strip p) = stripped_lines p.
Proof.
  unfold strip. now rewrite stripped_lines_rstrip, stripped_lines_lstrip.
Qed.

End DeliveryFacts.

Module PackFacts.
Import DeliveryFacts.

Lemma pack_len lines cur :
  len cur <= MAX_LENGTH ->
  Forall (fun l => len l <= MAX_LENGTH) lines ->
  Forall (fun p => len p <= MAX_LENGTH) (pack lines cur).
Proof.
  revert cur. induction lines as [|line rest IH]; intros cur Hcur Hlines.
  - cbn. auto.
  - inversion Hlines as [|? ? Hline Hrest]; subst. cbn [pack].
    destruct (Nat.ltb_spec MAX_LENGTH (len cur + len line + 1)) as [_|Hfit].
    + constructor; [exact Hcur|]. now apply IH.
    + apply IH; [|exact Hrest].
      unfold len, nl in *. rewrite !length_app. cbn [List.length]. lia.
Qed.

(** The parts are runs of consecutive lines joined again. *)
Lemma pack_groups lines g :
  g <> [] ->
  exists groups,
    pack lines (join_nl g) = map join_nl groups
    /\ List.concat groups = g ++ lines
    /\ Forall (fun g' => g' <> []) groups.
Proof.
  revert g. induction lines as [|line rest IH]; intros g Hg.
  - exists [g]. cbn. rewrite !app_nil_r. auto.
  - cbn [pack]. destruct (MAX_LENGTH <? len (join_nl g) + len line + 1).
    + destruct (IH [line] ltac:(discriminate)) as (groups & Hp & Hc & Hne).
      exists (g :: groups). cbn [map List.concat join_nl] in *.
      rewrite Hp, Hc. auto.
    + rewrite <- (join_nl_snoc g line Hg).
      destruct (IH (g ++ [line])) as (groups & Hp & Hc & Hne).
      { destruct g; discriminate. }
      exists groups. rewrite Hp, Hc, <- app_assoc. auto.
Qed.

Lemma sent_part_len p : Forall (fun c => len c <= len p) (sent_part p).
Proof.
  unfold sent_part. pose proof (strip_len p) as H.
  destruct (strip p); auto.
Qed.

Lemma sent_part_not_blank p : Forall (fun c => blank c = false) (sent_part p).
Proof.
  unfold sent_part. destruct (strip_head p) as [->|(c & r & -> & Hc)]; [auto|].
  constructor; [|auto]. now apply blank_letter_first.
Qed.

Lemma sent_part_lines p :
  map strip (nonblank_lines (flat_map split_nl (sent_part p))) = stripped_lines p.
Proof.
  rewrite <- (stripped_lines_strip p). unfold sent_part.
  destruct (strip p) as [|c r]; [reflexivity|].
  cbn [flat_map]. now rewrite app_nil_r.
Qed.

Lemma sent_parts_lines parts :
  map strip (nonblank_lines (flat_map split_nl (flat_map sent_part parts)))
  = map strip (nonblank_lines (flat_map split_nl parts)).
Proof.
  induction parts as [|p parts IH]; [reflexivity|].
  cbn [flat_map]. rewrite flat_map_app, !nonblank_lines_app, !map_app, IH.
  f_equal. apply sent_part_lines.
Qed.

Lemma split_joined groups :
  Forall (fun g => g <> []) groups ->
  Forall (Forall (fun l => ~ In LF l)) groups ->
  flat_map split_nl (map join_nl groups) = List.concat groups.
Proof.
  induction 1 as [|g groups Hg _ IH]; intros Hlf; [reflexivity|].
  inversion Hlf; subst. cbn [map flat_map List.concat].
  rewrite IH by assumption. f_equal. now apply split_nl_join.
Qed.

Lemma Forall_of_concat {A} (P : A -> Prop) (ls : list (list A)) :
  Forall P (List.concat ls) -> Forall (Forall P) ls.
Proof.
  induction ls as [|l ls IH]; cbn [List.concat]; intros H; [constructor|].
  apply Forall_app in H as [H1 H2]. constructor; auto.
Qed.

End PackFacts.

Lemma send_long_message_long text :
  MAX_LENGTH < len text ->
  send_long_message text = flat_map sent_part (parts_of text).
Proof.
  intros H. unfold send_long_message.
  destruct (Nat.leb_spec (len text) MAX_LENGTH); [lia | reflexivity].
Qed.

(** C5, as the specification has it, fails: [strip] takes the
    indentation of the first line of a part away, so the lines sent are
    not the lines of the text. *)
Lemma indentation_is_lost :
  MAX_LENGTH < len indented_text
  /\ forallb (fun l => len l <=? MAX_LENGTH) (split_nl indented_text) = true
  /\ nonblank_lines (flat_map split_nl (send_long_message indented_text))
     <> nonblank_lines (split_nl indented_text).
Proof.
  split; [apply Nat.ltb_lt; vm_compute; reflexivity|].
  split; [vm_compute; reflexivity|].
  intros H.
  apply (f_equal (hd [])) in H. vm_compute in H. discriminate H.
Qed.

(** C5, amended. A text longer than 4096 characters whose lines all fit
    is sent in chunks of at most 4096 characters; the parts they come
    from are runs of consecutive lines, in the order of the text (the
    first one opened by an empty line); each chunk is a part stripped of
    the white space around it, and none is empty or blank; the non-blank
    lines of the chunks are those of the text, in order, up to the white
    space at the two ends of a line.  A text that fits is sent as it is. *)
Theorem long_message_keeps_lines :
  forall text,
    (len text <= MAX_LENGTH -> send_long_message text = [text])
    /\ (MAX_LENGTH < len text ->
        Forall (fun l => len l <= MAX_LENGTH) (split_nl text) ->
        let sent := send_long_message text in
        Forall (fun c => len c <= MAX_LENGTH) sent
        /\ Forall (fun c => blank c = false) sent
        /\ (exists groups,
               List.concat groups = [] :: split_nl text
               /\ Forall (fun g => g <> []) groups
               /\ sent = flat_map (fun g => sent_part (join_nl g)) groups)
        /\ map strip (nonblank_lines (flat_map split_nl sent))
           = map strip (nonblank_lines (split_nl text))).
Proof.
  intros text. split.
  { intros H. unfold send_long_message.
    destruct (Nat.leb_spec (len text) MAX_LENGTH); [reflexivity | lia]. }
  intros Hlong Hlines sent. subst sent.
  rewrite (send_long_message_long text Hlong).
  split; [|split; [|split]].
  - assert (Hparts : Forall (fun p => len p <= MAX_LENGTH) (parts_of text)).
    { apply PackFacts.pack_len; [cbn; lia | exact Hlines]. }
    induction Hparts as [|p ps Hlen _ IH]; [constructor|].
    cbn [flat_map]. apply Forall_app. split; [|exact IH].
    eapply Forall_impl; [|apply PackFacts.sent_part_len].
    cbn beta. intros c Hcp. lia.
  - induction (parts_of text) as [|p ps IH]; [constructor|].
    cbn [flat_map]. apply Forall_app. split; [|exact IH].
    apply PackFacts.sent_part_not_blank.
  - destruct (PackFacts.pack_groups (split_nl text) [[]] ltac:(discriminate))
      as (groups & Hp & Hc & Hne).
    change (pack (split_nl text) (join_nl [[]])) with (parts_of text) in Hp.
    exists groups. split; [exact Hc|]. split; [exact Hne|].
    rewrite Hp. clear. induction groups as [|g gs IH]; [reflexivity|].
    cbn [map flat_map]. now rewrite IH.
  - destruct (PackFacts.pack_groups (split_nl text) [[]] ltac:(discriminate))
      as (groups & Hp & Hc & Hne).
    change (pack (split_nl text) (join_nl [[]])) with (parts_of text) in Hp.
    change ([[]] ++ split_nl text) with ([] :: split_nl text) in Hc.
    rewrite PackFacts.sent_parts_lines, Hp.
    rewrite PackFacts.split_joined.
    + assert (H : forall ls, ls = [] :: split_nl text ->
                             map strip (nonblank_lines ls)
                             = map strip (nonblank_lines (split_nl text)))
        by (intros ls ->; reflexivity).
      apply H. exact Hc.
    + exact Hne.
    + apply PackFacts.Forall_of_concat.
      assert (H : forall ls, ls = [] :: split_nl text ->
                             Forall (fun l => ~ In LF l) ls).
      { intros ls ->. constructor; [auto | apply DeliveryFacts.line_without_LF]. }
      apply H. exact Hc.
Qed.

Lemma long_message_keeps_lines_witness :
  Forall (fun c => len c <= MAX_LENGTH) (send_long_message indented_text)
  /\ send_long_message (utf8 "hola") = [utf8 "hola"].
Proof.
  destruct (long_message_keeps_lines indented_text) as [_ H].
  destruct (long_message_keeps_lines (utf8 "hola")) as [H' _].
  split.
  - apply H.
    + apply Nat.ltb_lt. vm_compute. reflexivity.
    + apply Forall_forall. intros l Hl.
      assert (Hb : forallb (fun l => len l <=? MAX_LENGTH) (split_nl indented_text) = true)
        by (vm_compute; reflexivity).
      rewrite forallb_forall in Hb. apply Nat.leb_le. now apply Hb.
  - apply H'. apply Nat.leb_le. vm_compute. reflexivity.
Defined.

(** * Further properties *)

(** ** Every update *)

Lemma run_settles E up ev s :
  handle_event E up ev s = settle (fst (run E up ev s)) (snd (run E up ev s))
  /\ raised E up ev s = match fst (run E up ev s) with
                        | Ok _ => None
                        | Raise e => Some e
                        end.
Proof.
  unfold handle_event, raised, run, settle.
  destruct (handler E up ev (enter s)) as [[a|e] w]; auto.
Qed.

Lemma buttons_known_replies l :
  forallb buttons_known (map (fun t => Reply t None) l) = true.
Proof. induction l; auto. Qed.

Ltac update_done :=
  cbv beta; cbn [is_raise];
  repeat match goal with
         | |- _ /\ _ => split
         end;
  try (intros; discriminate);
  try (cbn [List.length app]; rewrite ?length_app; cbn [List.length]; lia);
  try (rewrite ?forallb_app, ?buttons_known_replies; vm_compute; reflexivity);
  try (let Hdb := fresh in intros _ Hdb; rewrite ?Hdb; reflexivity).

Lemma every_update E up ev s :
  wp (handler E up ev)
     (fun r w =>
        List.length (gateway_calls w) <= 1
        /\ forallb buttons_known (outbox w) = true
        /\ (is_raise r = true -> db E = true -> store w = s))
     (enter s).
Proof.
  destruct ev as [name|body|a]; unfold handler, enter.
  - wp_all. all: update_done.
  - wp_all. all: update_done.
  - wp_all. all: update_done.
Qed.

(** X1. One update makes at most one call to the gateway. *)
Theorem at_most_one_gateway_call :
  forall E up ev s, List.length (gateway_calls (handle_event E up ev s)) <= 1.
Proof.
  intros E up ev s. destruct (run_settles E up ev s) as [-> _].
  destruct (every_update E up ev s) as (H & _).
  unfold run. destruct (fst (handler E up ev (enter s))); exact H.
Qed.

(** X2. Whatever keyboard an update shows, each of its buttons carries
    callback data that [handle_callback_query] has a branch for. *)
Theorem shown_buttons_are_handled :
  forall E up ev s o b,
    In o (outbox (handle_event E up ev s)) ->
    In b (buttons_of o) ->
    branch_exists [] (ButtonPress (snd b)) = true.
Proof.
  intros E up ev s o b Ho Hb.
  assert (H : forallb buttons_known (outbox (handle_event E up ev s)) = true).
  { destruct (run_settles E up ev s) as [-> _].
    destruct (every_update E up ev s) as (_ & H & _).
    unfold run. destruct (fst (handler E up ev (enter s))); [exact H|].
    cbn. rewrite forallb_app, H. reflexivity. }
  rewrite forallb_forall in H. specialize (H o Ho).
  unfold buttons_known in H. rewrite forallb_forall in H. exact (H b Hb).
Qed.

Lemma shown_buttons_are_handled_witness :
  branch_exists [] (ButtonPress (utf8 "topic_Límites")) = true.
Proof.
  apply (shown_buttons_are_handled (deployment true) StatusError
           (Command Cmd.prueba) default_state
           (Reply (utf8 "¡Excelente! Elige el tema:")
                  (Some (map (fun topic => [(topic, utf8 "topic_" ++ topic)])
                             EXERCISE_TOPICS)))
           (utf8 "Límites", utf8 "topic_Límites")).
  - vm_compute. left. reflexivity.
  - vm_compute. do 5 right. left. reflexivity.
Defined.

(** X3. With a database, a text message or a button press whose handler
    raises leaves the stored record as it was: [set_user_state] is the
    last statement of [handle_text_message], of [handle_callback_query]
    and of [generate_exercise], so nothing of the transition is written.
    The command handlers are left out: they write before they reply. *)
Theorem raise_writes_nothing_to_database :
  forall E up ev s,
    db E = true ->
    (forall name, ev <> Command name) ->
    raised E up ev s <> None ->
    store (handle_event E up ev s) = s.
Proof.
  intros E up ev s Hdb _ Hr.
  destruct (run_settles E up ev s) as [-> Hraised]. rewrite Hraised in Hr.
  destruct (every_update E up ev s) as (_ & _ & H).
  unfold run in *. destruct (fst (handler E up ev (enter s))); [congruence|].
  cbn. apply H; auto.
Qed.

Lemma raise_writes_nothing_to_database_witness :
  store (handle_event (deployment true) StatusError (ButtonPress (utf8 "diff_3"))
           chose_topic) = chose_topic.
Proof.
  apply (raise_writes_nothing_to_database (deployment true) StatusError
           (ButtonPress (utf8 "diff_3")) chose_topic).
  - reflexivity.
  - discriminate.
  - vm_compute. discriminate.
Defined.

(** ** Free text *)

Ltac mode_known :=
  match goal with
  | H : PyStr.eqb ?m _ = true |- _ => apply eqb_eq in H; subst m
  end.

Ltac text_done :=
  cbv beta; cbn [is_raise];
  repeat match goal with
         | |- _ /\ _ => split
         end;
  try (intros; discriminate);
  try (intros _; repeat split);
  try reflexivity;
  try (left; reflexivity);
  try (unfold text_failure; cbn [bot_state current_exercise];
       try mode_known; cbn [PyStr.eqb N.eqb Pos.eqb andb];
       repeat match goal with
              | H : _ = _ |- _ => rewrite H
              end; reflexivity);
  try (match goal with |- context [db ?E] => destruct (db E) end; reflexivity);
  try (right; eauto 6).

Lemma every_text E up body s :
  wp (handle_text_message E up body)
     (fun r w =>
        match r with Ok _ => None | Raise e => Some e end = text_failure E body s
        /\ current_exercise (store w) = current_exercise s
        /\ (is_raise r = true ->
            store w = s /\ gateway_calls w = [] /\ outbox w = [Typing])
        /\ (last_asesoria_topic (store w) = last_asesoria_topic s
            \/ exists doubt difficulty,
                 DoubtPattern.search body = Some (doubt, difficulty)
                 /\ last_asesoria_topic (store w) = Some doubt))
     (enter s).
Proof.
  destruct (gateway_text E up) as [v Hv].
  destruct s as [m lt ce]. unfold enter. wp_all.
  all: text_done.
Qed.

Lemma text_raised E up body s : raised E up (Text body) s = text_failure E body s.
Proof.
  destruct (run_settles E up (Text body) s) as [_ ->].
  destruct (every_text E up body s) as (H & _).
  unfold run, handler. exact H.
Qed.

(** X4. The two errors of [handle_text_message] itself.  An answer that
    arrives in the answer mode when the record has no exercise raises
    [AttributeError]; a doubt whose level word matched the pattern but
    whose lowercase is no key of [difficulty_map] (as with a capital I
    with a dot) raises the [KeyError] of the lookup. *)
Theorem text_raises_on_its_own_errors :
  forall E up body s,
    (bot_state s = Mode.exercise_answer ->
     current_exercise s = None ->
     raised E up (Text body) s = Some AttributeError)
    /\ (forall doubt difficulty,
          bot_state s = Mode.doubt ->
          DoubtPattern.search body = Some (doubt, difficulty) ->
          Py.dict_get (VStr (lower (lower_wide E) difficulty)) difficulty_map = None ->
          raised E up (Text body) s = Some KeyError).
Proof.
  intros E up body s. rewrite text_raised. unfold text_failure. split.
  - intros Hm Hce. rewrite Hm, Hce. reflexivity.
  - intros doubt difficulty Hm Hs Hk. rewrite Hm, Hs.
    unfold Py.getitem. rewrite Hk. reflexivity.
Qed.

Lemma text_raises_on_its_own_errors_witness :
  raised (deployment true) StatusError (Text (utf8 "Derivadas nivel İntermedio"))
         (set_bot_state Mode.doubt default_state)
  = Some KeyError.
Proof.
  destruct (text_raises_on_its_own_errors (deployment true) StatusError
              (utf8 "Derivadas nivel İntermedio")
              (set_bot_state Mode.doubt default_state)) as [_ H].
  apply (H (utf8 "Derivadas") (utf8 "İntermedio")).
  - reflexivity.
  - vm_compute. reflexivity.
  - vm_compute. reflexivity.
Defined.

(** X5. Free text never changes the stored exercise. *)
Theorem text_leaves_exercise_alone :
  forall E up body s,
    current_exercise (step E s (Text body, up)) = current_exercise s.
Proof.
  intros E up body s. unfold step. cbn [fst snd].
  destruct (run_settles E up (Text body) s) as [-> _].
  destruct (every_text E up body s) as (_ & H & _).
  unfold run, handler.
  destruct (fst (handle_text_message E up body (enter s))); exact H.
Qed.

(** X6. When one of the two errors of [handle_text_message] itself occurs,
    the handler has neither changed the record, with or without a
    database, nor called the gateway, and the user gets the typing action
    and the apology. *)
Theorem failing_text_changes_nothing :
  forall E up body s,
    text_failure E body s <> None ->
    let w := handle_event E up (Text body) s in
    store w = s
    /\ gateway_calls w = []
    /\ outbox w = [Typing; Reply Msg.unexpected None].
Proof.
  intros E up body s Hr. cbv zeta. rewrite <- text_raised with (up := up) in Hr.
  destruct (run_settles E up (Text body) s) as [Hw Hraised].
  pose proof (every_text E up body s) as (_ & _ & H & _).
  unfold run, handler in *. rewrite Hw. rewrite Hraised in Hr.
  destruct (handle_text_message E up body (enter s)) as [[a|e] w0];
    cbn [fst snd] in *; [congruence|].
  destruct (H eq_refl) as (H1 & H2 & H3). cbn. rewrite H3. auto.
Qed.

Lemma failing_text_changes_nothing_witness :
  store (handle_event (deployment false) StatusError (Text (utf8 "2x"))
           (set_bot_state Mode.exercise_answer default_state))
  = set_bot_state Mode.exercise_answer default_state.
Proof.
  apply (failing_text_changes_nothing (deployment false) StatusError (utf8 "2x")
           (set_bot_state Mode.exercise_answer default_state)).
  vm_compute. discriminate.
Defined.

(** X7. The last topic changes only when a doubt is accepted, and then to the
    first group of the match. *)
Theorem text_sets_last_topic_to_doubt :
  forall E up body s,
    let s' := step E s (Text body, up) in
    last_asesoria_topic s' = last_asesoria_topic s
    \/ exists doubt difficulty,
         DoubtPattern.search body = Some (doubt, difficulty)
         /\ last_asesoria_topic s' = Some doubt.
Proof.
  intros E up body s. unfold step. cbn [fst snd].
  destruct (run_settles E up (Text body) s) as [-> _].
  destruct (every_text E up body s) as (_ & _ & _ & H).
  unfold run, handler.
  destruct (fst (handle_text_message E up body (enter s))); exact H.
Qed.

(** ** What the doubt pattern finds *)

Module MatchFacts.
Import DoubtPattern.

Lemma lstrip_split r :
  exists ws, r = ws ++ lstrip r /\ forallb isspace ws = true.
Proof.
  induction r as [|c r (ws & Hr & Hws)]; [exists []; auto|].
  cbn [lstrip]. destruct (isspace c) eqn:Hc.
  - exists (c :: ws). cbn. rewrite Hc, Hws. split; [congruence | reflexivity].
  - exists []. auto.
Qed.

Lemma word_split p t r :
  word p t = Some r -> exists m, t = m ++ r /\ word p m = Some [] /\ len m = len p.
Proof.
  revert t. induction p as [|a p IH]; intros t H.
  - cbn in H. injection H as ->. exists []. auto.
  - destruct t as [|c t]; [discriminate H|]. cbn [word] in H.
    destruct (ci a c) eqn:Hc; [|discriminate H].
    destruct (IH t H) as (m & -> & Hm & Hl).
    exists (c :: m). cbn [word app]. rewrite Hc. unfold len in *. cbn. auto.
Qed.

Lemma alternatives_sound ws t w :
  alternatives ws t = Some w ->
  exists lw post, In lw ws /\ t = w ++ post /\ word lw w = Some [].
Proof.
  induction ws as [|lw ws IH]; [discriminate|]. cbn [alternatives].
  destruct (word lw t) as [r|] eqn:Hw.
  - intros H. injection H as <-.
    destruct (word_split lw t r Hw) as (m & -> & Hm & Hl).
    unfold len in *. rewrite <- Hl, firstn_app, Nat.sub_diag, firstn_all.
    cbn [firstn]. rewrite app_nil_r.
    exists lw, r. cbn. auto.
  - intros H. destruct (IH H) as (lw' & post & Hin & Ht & Hw').
    exists lw', post. cbn. auto.
Qed.

Lemma tail_sound t w :
  tail t = Some w ->
  exists sp nv sp' lw post,
    t = sp ++ nv ++ sp' ++ w ++ post
    /\ sp <> [] /\ forallb isspace sp = true
    /\ word nivel nv = Some []
    /\ forallb isspace sp' = true
    /\ In lw levels /\ word lw w = Some [].
Proof.
  destruct t as [|c r]; [discriminate|]. cbn [tail].
  destruct (isspace c) eqn:Hc; [|discriminate].
  destruct (lstrip_split r) as (ws & Hr & Hws).
  destruct (word nivel (lstrip r)) as [r'|] eqn:Hn; [|discriminate].
  intros Ha.
  destruct (word_split nivel _ _ Hn) as (nv & Hnv & Hword & _).
  destruct (lstrip_split r') as (ws' & Hr' & Hws').
  destruct (alternatives_sound _ _ _ Ha) as (lw & post & Hin & Hpost & Hw).
  exists (c :: ws), nv, ws', lw, post.
  repeat split; auto; try discriminate.
  - cbn [app]. f_equal. rewrite Hr, Hnv, Hr', Hpost. reflexivity.
  - cbn. now rewrite Hc.
Qed.

Lemma here_sound t d w :
  here t = Some (d, w) ->
  exists rest, t = d ++ rest /\ d <> [] /\ ~ In LF d /\ tail rest = Some w.
Proof.
  revert d. induction t as [|c t IH]; intros d; [discriminate|].
  cbn [here]. destruct (N.eqb_spec c LF) as [|Hc]; [discriminate|].
  destruct (here t) as [[d' w']|].
  - intros H. injection H as <- <-.
    destruct (IH d' eq_refl) as (rest & -> & Hd & Hlf & Ht).
    exists rest. repeat split; auto; try discriminate.
    cbn. intros [H|H]; auto.
  - destruct (tail t) as [w'|] eqn:Ht; [|discriminate].
    intros H. injection H as <- <-.
    exists t. repeat split; auto; try discriminate.
    cbn. intros [H|[]]. auto.
Qed.

Lemma search_sound t d w : search t = Some (d, w) -> doubt_match t d w.
Proof.
  induction t as [|c t IH].
  - cbn. discriminate.
  - cbn [search]. destruct (here (c :: t)) as [[d' w']|] eqn:Hh.
    + intros H. injection H as -> ->.
      destruct (here_sound _ _ _ Hh) as (rest & Ht & Hd & Hlf & Htail).
      destruct (tail_sound _ _ Htail)
        as (sp & nv & sp' & lw & post & -> & H1 & H2 & H3 & H4 & H5 & H6).
      exists [], sp, nv, sp', lw, post. cbn [app]. repeat split; auto.
    + intros H. destruct (IH H)
        as (pre & sp & nv & sp' & lw & post & -> & H').
      exists (c :: pre), sp, nv, sp', lw, post. split; [reflexivity | exact H'].
Qed.

(** Lowercasing within Latin-1. *)
Lemma lower_from_latin1 lw whole i s :
  latin1 s = true -> lower_from lw whole i s = map lower_latin1 s.
Proof.
  revert i. induction s as [|c s IH]; intros i H; [reflexivity|].
  cbn [latin1 forallb] in H. apply andb_true_iff in H as [Hc Hs].
  cbn [lower_from map]. rewrite Hc. cbn [app]. f_equal. now apply IH.
Qed.

Lemma lower_from_app lw whole i a b :
  lower_from lw whole i (a ++ b)
  = lower_from lw whole i a ++ lower_from lw whole (i + List.length a) b.
Proof.
  revert i. induction a as [|c a IH]; intros i.
  - cbn. now rewrite Nat.add_0_r.
  - cbn [app lower_from List.length]. rewrite IH, <- app_assoc.
    now rewrite Nat.add_succ_r.
Qed.

Lemma word_lowercase p w :
  latin1 w = true -> word p w = Some [] -> map lower_latin1 w = p.
Proof.
  revert w. induction p as [|a p IH]; intros w Hl Hw.
  - cbn in Hw. injection Hw as ->. reflexivity.
  - destruct w as [|c w]; [discriminate Hw|].
    cbn [latin1 forallb] in Hl. apply andb_true_iff in Hl as [Hc Hl].
    cbn [word] in Hw. destruct (ci a c) eqn:Hci; [|discriminate Hw].
    cbn [map]. f_equal; [|now apply IH].
    unfold ci in Hci. rewrite Hc in Hci.
    apply orb_true_iff in Hci as [Hci|Hci]; [now apply N.eqb_eq in Hci|].
    apply andb_true_iff in Hci as [_ Hci].
    apply N.ltb_lt in Hc.
    apply orb_true_iff in Hci as [Hci|Hci]; apply N.eqb_eq in Hci; lia.
Qed.

End MatchFacts.

(** X8. A match reported by the search is a match: the text holds the first
    group, white space, nivel, optional white space and the second group,
    in this order; the first group is not empty and has no line feed, the
    second is one of the three level words in some case. *)
Theorem search_finds_a_match :
  forall t doubt difficulty,
    DoubtPattern.search t = Some (doubt, difficulty) ->
    doubt_match t doubt difficulty.
Proof. exact MatchFacts.search_sound. Qed.

Lemma search_finds_a_match_witness :
  doubt_match (utf8 "Dime: límites  NIVEL avanzado, gracias")
              (utf8 "Dime: límites ") (utf8 "avanzado").
Proof.
  apply (search_finds_a_match (utf8 "Dime: límites  NIVEL avanzado, gracias")).
  vm_compute. reflexivity.
Defined.

(** ** An accepted doubt *)

Lemma level_has_tier E lw w :
  In lw DoubtPattern.levels ->
  DoubtPattern.word lw w = Some [] ->
  latin1 w = true ->
  exists tier,
    In tier tiers
    /\ Py.getitem (lower (lower_wide E) w) (VDict difficulty_map) = inr (VStr tier).
Proof.
  intros Hin Hw Hl. unfold lower.
  rewrite (MatchFacts.lower_from_latin1 _ _ _ _ Hl).
  rewrite (MatchFacts.word_lowercase _ _ Hl Hw).
  cbn in Hin. destruct Hin as [<-|[<-|[<-|[]]]].
  - exists (utf8 "básico"). split; [vm_compute; auto | reflexivity].
  - exists (utf8 "detallado"). split; [vm_compute; auto | reflexivity].
  - exists (utf8 "experto"). split; [vm_compute; auto | reflexivity].
Qed.

(** X9. In the doubt mode, a text with a match whose level word is written in
    Latin-1 letters is answered: the gateway is called once, with the
    stripped first group and the tier of the level, the mode becomes the
    deepen mode and the last topic is the first group as matched, not
    stripped. *)
Theorem accepted_doubt_is_answered :
  forall E up s body doubt difficulty,
    bot_state s = Mode.doubt ->
    DoubtPattern.search body = Some (doubt, difficulty) ->
    latin1 difficulty = true ->
    let w := handle_event E up (Text body) s in
    store w = {| bot_state := Mode.deepen_topic;
                 last_asesoria_topic := Some doubt;
                 current_exercise := current_exercise s |}
    /\ raised E up (Text body) s = None
    /\ exists tier,
         In tier tiers
         /\ gateway_calls w
            = [utf8 "Eres un tutor experto en Cálculo Diferencial. Explica: " ++ dq
               ++ strip doubt ++ dq ++ utf8 ". Nivel: " ++ tier
               ++ utf8 ". Usa texto plano (ej: x^2)."].
Proof.
  intros E up s body doubt difficulty Hm Hs Hl. cbv zeta.
  destruct (MatchFacts.search_sound _ _ _ Hs)
    as (pre & sp & nv & sp' & lw & post & _ & _ & _ & _ & _ & _ & _ & Hin & Hw).
  destruct (level_has_tier E lw difficulty Hin Hw Hl) as (tier & Htier & Hget).
  destruct (gateway_text E up) as [v Hv].
  destruct s as [m lt ce]. cbn in Hm. subst m.
  split; [|split].
  - apply handle_event_wp. unfold handler, enter. wp_all.
    destruct (db E); reflexivity.
  - apply raised_wp. unfold handler, enter. wp_all. reflexivity.
  - exists tier. split; [exact Htier|].
    apply handle_event_wp. unfold handler, enter. wp_all. reflexivity.
Qed.

Lemma accepted_doubt_is_answered_witness :
  store (handle_event (deployment true) StatusError
           (Text (utf8 "¿Qué es un límite?  nivel FÁCIL"))
           (set_bot_state Mode.doubt default_state))
  = {| bot_state := Mode.deepen_topic;
       last_asesoria_topic := Some (utf8 "¿Qué es un límite? ");
       current_exercise := None |}.
Proof.
  apply (accepted_doubt_is_answered (deployment true) StatusError
           (set_bot_state Mode.doubt default_state)
           (utf8 "¿Qué es un límite?  nivel FÁCIL")
           (utf8 "¿Qué es un límite? ") (utf8 "FÁCIL")).
  - reflexivity.
  - vm_compute. reflexivity.
  - reflexivity.
Defined.

(** ** Keywords inside other words *)

Lemma keyword_found E pre w post k :
  In k positive_keywords ->
  case_variant k w = true ->
  is_positive E (pre ++ w ++ post) = true.
Proof.
  intros Hk Hv. apply is_positive_spec.
  unfold case_variant in Hv. apply andb_true_iff in Hv as [Hl Heq].
  apply eqb_eq in Heq.
  exists k. unfold lower. rewrite !MatchFacts.lower_from_app.
  rewrite (MatchFacts.lower_from_latin1 _ _ _ w Hl), Heq.
  eauto.
Qed.

(** X10. The verdict is correct as soon as a keyword occurs anywhere in the
    feedback, in any case and also inside a longer word: feedback that
    says [incorrecto] is judged correct and leads to the next-action
    mode. *)
Theorem keyword_inside_a_word_counts :
  forall E up s ex text pre w post k,
    bot_state s = Mode.exercise_answer ->
    current_exercise s = Some ex ->
    In k positive_keywords ->
    case_variant k w = true ->
    call_gemini_api E up false = VStr (pre ++ w ++ post) ->
    step E s (Text text, up)
    = {| bot_state := Mode.next_action;
         last_asesoria_topic := last_asesoria_topic s;
         current_exercise := current_exercise s |}.
Proof.
  intros E up s ex text pre w post k Hm Hex Hk Hv Hcall.
  rewrite (answer_is_judged E up s ex text _ Hm Hex Hcall).
  rewrite (keyword_found E pre w post k Hk Hv). reflexivity.
Qed.

Lemma keyword_inside_a_word_counts_witness :
  bot_state (step (deployment true) answering
               (Text (utf8 "x"), Answer (Some (utf8 "Incorrecto, revisa el signo")) None))
  = Mode.next_action.
Proof.
  rewrite (keyword_inside_a_word_counts (deployment true)
           (Answer (Some (utf8 "Incorrecto, revisa el signo")) None)
           answering _ (utf8 "x")
           (utf8 "In") (utf8 "correcto") (utf8 ", revisa el signo") (utf8 "correcto")
           eq_refl eq_refl).
  - reflexivity.
  - vm_compute. auto.
  - reflexivity.
  - reflexivity.
Defined.

(** ** Merging the answer into the exercise *)

Module DictFacts.

Lemma eqb_sym s t : PyStr.eqb s t = PyStr.eqb t s.
Proof.
  revert t. induction s as [|a s IH]; intros [|b t]; cbn; auto.
  now rewrite N.eqb_sym, IH.
Qed.

Lemma key_eq_of_str s k : Py.key_eq (VStr s) k = true -> k = VStr s.
Proof.
  destruct k as [| b | z | f | t | l | d]; cbn; try discriminate.
  intros H. apply eqb_eq in H. now subst.
Qed.

Lemma set_other_key k k' v d :
  Py.key_eq k' (VStr k) = false ->
  Py.dict_get (VStr k) (Py.dict_set k' v d) = Py.dict_get (VStr k) d.
Proof.
  intros Hk. induction d as [|[k1 v1] d IH]; cbn.
  - now rewrite Hk.
  - destruct (Py.key_eq k1 k') eqn:H1; cbn.
    + destruct (Py.key_eq k1 (VStr k)) eqn:H2; [|reflexivity].
      apply key_eq_str in H2. subst k1.
      apply key_eq_of_str in H1. subst k'.
      cbn in Hk. rewrite eqb_refl in Hk. discriminate.
    + now rewrite IH.
Qed.

Lemma set_keeps_key k k' v d :
  Py.dict_get k d <> None -> Py.dict_get k (Py.dict_set k' v d) <> None.
Proof.
  induction d as [|[k1 v1] d IH]; cbn; [congruence|].
  destruct (Py.key_eq k1 k') eqn:H1; cbn; destruct (Py.key_eq k1 k); auto; discriminate.
Qed.

Lemma merged_keeps_key k m d :
  Py.dict_get k d <> None -> Py.dict_get k (merged m d) <> None.
Proof.
  revert d. induction m as [|[k0 v0] m IH]; intros d H; [exact H|].
  cbn. apply IH. now apply set_keeps_key.
Qed.

Lemma merged_has k m d :
  Py.dict_get (VStr k) m <> None -> Py.dict_get (VStr k) (merged m d) <> None.
Proof.
  revert d. induction m as [|[k0 v0] m IH]; intros d H; [now cbn in H|].
  cbn in *. destruct (Py.key_eq k0 (VStr k)) eqn:Hk.
  - apply merged_keeps_key. apply key_eq_str in Hk. subst k0.
    rewrite dict_get_set_same. discriminate.
  - now apply IH.
Qed.

Lemma merged_other k m d :
  Py.dict_get (VStr k) m = None ->
  Py.dict_get (VStr k) (merged m d) = Py.dict_get (VStr k) d.
Proof.
  revert d. induction m as [|[k0 v0] m IH]; intros d H; [reflexivity|].
  cbn in *. destruct (Py.key_eq k0 (VStr k)) eqn:Hk; [discriminate H|].
  rewrite (IH _ H). now apply set_other_key.
Qed.

Lemma merged_wins k v m d :
  unique_keys m = true ->
  Py.dict_get (VStr k) m = Some v ->
  Py.dict_get (VStr k) (merged m d) = Some v.
Proof.
  revert d. induction m as [|[k0 v0] m IH]; intros d Hu H; [discriminate H|].
  cbn [unique_keys] in Hu.
  destruct (Py.dict_get k0 m) eqn:Hk0; [discriminate Hu|].
  cbn in H. cbn [merged fold_left fst snd].
  change (fold_left _ m ?x) with (merged m x).
  destruct (Py.key_eq k0 (VStr k)) eqn:Hk.
  - injection H as <-. apply key_eq_str in Hk. subst k0.
    rewrite merged_other by exact Hk0. apply dict_get_set_same.
  - now apply IH.
Qed.

(** A list that holds the string [problem] is no sequence of pairs. *)
Lemma update_pairs_problem l d :
  lists_problem l = true ->
  exists d' e, Py.update_pairs l d = (d', Some e).
Proof.
  revert d. induction l as [|x l IH]; intros d H; [discriminate H|].
  cbn [lists_problem existsb] in H. cbn [Py.update_pairs].
  destruct (Py.pair_of x) as [e|[k v]] eqn:Hx; [eauto|].
  apply orb_true_iff in H as [H|H]; [|now apply IH].
  exfalso. destruct x; try discriminate H.
  apply eqb_eq in H. subst s. discriminate Hx.
Qed.

End DictFacts.

(** ** Another exercise *)

Lemma ready_items s d :
  current_exercise s = Some d ->
  ready s = true ->
  exists t n, Py.dict_get (VStr (utf8 "topic")) d = Some t
              /\ Py.dict_get (VStr (utf8 "difficulty")) d = Some n.
Proof.
  intros Hd Hr. unfold ready in Hr. rewrite Hd in Hr.
  destruct (Py.dict_get (VStr (utf8 "topic")) d); [|discriminate].
  destruct (Py.dict_get (VStr (utf8 "difficulty")) d); [|discriminate].
  eauto.
Qed.

(** X11. With a topic and a difficulty in the record, a press of
    [next_action_similar] that is answered by a JSON object with a
    [problem] key: the object is merged into the exercise (a key of the
    object has the value of the object afterwards, a key it does not have
    keeps the value of the exercise, a problem is there), the mode becomes
    the answer mode, the last topic is kept, the gateway got the
    generation prompt and the user the problem. *)
Theorem generated_exercise_is_merged :
  forall E up s d m p,
    current_exercise s = Some d ->
    ready s = true ->
    call_gemini_api E up true = VDict m ->
    Py.dict_get (VStr (utf8 "problem")) m = Some p ->
    let press := ButtonPress Action.next_action_similar in
    let w := handle_event E up press s in
    store w = {| bot_state := Mode.exercise_answer;
                 last_asesoria_topic := last_asesoria_topic s;
                 current_exercise := Some (merged m d) |}
    /\ raised E up press s = None
    /\ gateway_calls w = [generation_prompt E d]
    /\ outbox w
       = [AnswerCallback;
          EditMessage (utf8 "¡Perfecto! Generando otro ejercicio...") None;
          Typing]
         ++ map (fun t => Reply t None)
                (send_long_message
                   (utf8 "Aquí tienes:" ++ nl ++ nl ++ format E p ++ nl ++ nl
                    ++ utf8 "Escribe tu respuesta."))
    /\ Py.dict_get (VStr (utf8 "problem")) (merged m d) <> None
    /\ (forall k, Py.dict_get (VStr k) m = None ->
                  Py.dict_get (VStr k) (merged m d) = Py.dict_get (VStr k) d)
    /\ (unique_keys m = true ->
        forall k v, Py.dict_get (VStr k) m = Some v ->
                    Py.dict_get (VStr k) (merged m d) = Some v).
Proof.
  intros E up s d m p Hd Hr Hcall Hp. cbv zeta.
  destruct (ready_items s d Hd Hr) as (t & n & Ht & Hn).
  assert (Hupd : Py.dict_update (VDict m) d = (merged m d, None)) by reflexivity.
  assert (Htruthy : Py.truthy (VDict m) = true).
  { destruct m; [discriminate Hp | reflexivity]. }
  assert (Hin : Py.str_in (utf8 "problem") (VDict m) = inr true).
  { unfold Py.str_in. now rewrite Hp. }
  assert (Hget : Py.getitem (utf8 "problem") (VDict m) = inr p).
  { unfold Py.getitem. now rewrite Hp. }
  unfold generation_prompt. rewrite Ht, Hn. cbn [of_option].
  destruct s as [mo lt ce]. cbn in Hd. subst ce.
  split; [|split; [|split; [|split; [|split; [|split]]]]].
  - apply handle_event_wp. unfold handler, enter, Action.next_action_similar.
    wp_all. destruct (db E); reflexivity.
  - apply raised_wp. unfold handler, enter, Action.next_action_similar.
    wp_all. reflexivity.
  - apply handle_event_wp. unfold handler, enter, Action.next_action_similar.
    wp_all. reflexivity.
  - apply handle_event_wp. unfold handler, enter, Action.next_action_similar.
    wp_all. reflexivity.
  - apply DictFacts.merged_has. now rewrite Hp.
  - intros k Hk. now apply DictFacts.merged_other.
  - intros Hu k v Hk. now apply DictFacts.merged_wins.
Qed.

Lemma generated_exercise_is_merged_witness :
  let data := [(VStr (utf8 "problem"), VStr (utf8 "Deriva x^3"));
               (VStr (utf8 "solution"), VStr (utf8 "3x^2"))] in
  store (handle_event (deployment true)
           (Answer (Some (utf8 "{...}")) (Some (VDict data)))
           (ButtonPress Action.next_action_similar) answering)
  = {| bot_state := Mode.exercise_answer;
       last_asesoria_topic := None;
       current_exercise :=
         Some [(VStr (utf8 "topic"), VStr (utf8 "Polinomios"));
               (VStr (utf8 "difficulty"), VInt 3);
               (VStr (utf8 "problem"), VStr (utf8 "Deriva x^3"));
               (VStr (utf8 "solution"), VStr (utf8 "3x^2"))] |}.
Proof.
  cbv zeta.
  destruct (generated_exercise_is_merged (deployment true)
              (Answer (Some (utf8 "{...}"))
                      (Some (VDict [(VStr (utf8 "problem"), VStr (utf8 "Deriva x^3"));
                                    (VStr (utf8 "solution"), VStr (utf8 "3x^2"))])))
              answering _
              [(VStr (utf8 "problem"), VStr (utf8 "Deriva x^3"));
               (VStr (utf8 "solution"), VStr (utf8 "3x^2"))]
              (VStr (utf8 "Deriva x^3")) eq_refl eq_refl eq_refl eq_refl)
    as (H & _).
  rewrite H. reflexivity.
Defined.

(** X12. With a topic and a difficulty in the record, an answer of the gateway
    that is falsy, or that holds no [problem] (as key, element or
    substring): the mode becomes idle, the exercise stays as it was, and
    the user is told to retry. *)
Theorem generation_without_problem_is_idle :
  forall E up s d,
    current_exercise s = Some d ->
    ready s = true ->
    Py.truthy (call_gemini_api E up true) = false
    \/ Py.str_in (utf8 "problem") (call_gemini_api E up true) = inr false ->
    let press := ButtonPress Action.next_action_similar in
    let w := handle_event E up press s in
    store w = {| bot_state := Mode.idle;
                 last_asesoria_topic := last_asesoria_topic s;
                 current_exercise := Some d |}
    /\ raised E up press s = None
    /\ gateway_calls w = [generation_prompt E d]
    /\ outbox w
       = [AnswerCallback;
          EditMessage (utf8 "¡Perfecto! Generando otro ejercicio...") None;
          Typing; Reply Msg.retry_exercise None].
Proof.
  intros E up s d Hd Hr Hdata. cbv zeta.
  destruct (ready_items s d Hd Hr) as (t & n & Ht & Hn).
  unfold generation_prompt. rewrite Ht, Hn. cbn [of_option].
  destruct s as [mo lt ce]. cbn in Hd. subst ce.
  destruct Hdata as [Hf|Hin].
  - split; [|split; [|split]].
    + apply handle_event_wp. unfold handler, enter, Action.next_action_similar.
      wp_all. destruct (db E); reflexivity.
    + apply raised_wp. unfold handler, enter, Action.next_action_similar.
      wp_all. reflexivity.
    + apply handle_event_wp. unfold handler, enter, Action.next_action_similar.
      wp_all. reflexivity.
    + apply handle_event_wp. unfold handler, enter, Action.next_action_similar.
      wp_all. reflexivity.
  - split; [|split; [|split]].
    + apply handle_event_wp. unfold handler, enter, Action.next_action_similar.
      wp_all. all: destruct (db E); reflexivity.
    + apply raised_wp. unfold handler, enter, Action.next_action_similar.
      wp_all. all: reflexivity.
    + apply handle_event_wp. unfold handler, enter, Action.next_action_similar.
      wp_all. all: reflexivity.
    + apply handle_event_wp. unfold handler, enter, Action.next_action_similar.
      wp_all. all: reflexivity.
Qed.

Lemma generation_without_problem_is_idle_witness :
  bot_state answering = Mode.exercise_answer
  /\ bot_state (store (handle_event (deployment false)
                         (Answer (Some (utf8 "{}")) (Some (VDict [])))
                         (ButtonPress Action.next_action_similar) answering))
     = Mode.idle.
Proof.
  destruct (generation_without_problem_is_idle (deployment false)
              (Answer (Some (utf8 "{}")) (Some (VDict []))) answering _
              eq_refl eq_refl (or_introl eq_refl)) as (H & _).
  split; [reflexivity|]. rewrite H. reflexivity.
Defined.

(** X13. With a topic and a difficulty in the record, a truthy answer that is
    a number or a boolean raises [TypeError] before anything is changed;
    a JSON list with the element [problem] passes the test and then fails
    in [update]: the handler raises, and the mode is the answer mode
    without a database and unchanged with one. *)
Theorem unusable_answer_raises :
  forall E up s d,
    current_exercise s = Some d ->
    ready s = true ->
    let press := ButtonPress Action.next_action_similar in
    let w := handle_event E up press s in
    (Py.truthy (call_gemini_api E up true) = true ->
     Py.str_in (utf8 "problem") (call_gemini_api E up true) = inl TypeError ->
     raised E up press s = Some TypeError /\ store w = s)
    /\ (forall l,
          call_gemini_api E up true = VList l ->
          lists_problem l = true ->
          raised E up press s <> None
          /\ bot_state (store w)
             = if db E then bot_state s else Mode.exercise_answer).
Proof.
  intros E up s d Hd Hr. cbv zeta.
  destruct (ready_items s d Hd Hr) as (t & n & Ht & Hn).
  destruct s as [mo lt ce]. cbn in Hd. subst ce.
  split.
  - intros Htruthy Hin. split.
    + apply raised_wp. unfold handler, enter, Action.next_action_similar.
      wp_all. reflexivity.
    + apply handle_event_wp. unfold handler, enter, Action.next_action_similar.
      wp_all. reflexivity.
  - intros l Hcall Hl.
    destruct (DictFacts.update_pairs_problem l d Hl) as (d' & e & Hupd).
    assert (Hupd' : Py.dict_update (VList l) d = (d', Some e)) by exact Hupd.
    assert (Htruthy : Py.truthy (VList l) = true).
    { destruct l; [discriminate Hl | reflexivity]. }
    assert (Hin : Py.str_in (utf8 "problem") (VList l) = inr true).
    { unfold Py.str_in. f_equal. exact Hl. }
    split.
    + apply raised_wp. unfold handler, enter, Action.next_action_similar.
      wp_all. discriminate.
    + apply handle_event_wp. unfold handler, enter, Action.next_action_similar.
      wp_all. destruct (db E); reflexivity.
Qed.

Lemma unusable_answer_raises_witness :
  raised (deployment false)
         (Answer (Some (utf8 "[..]")) (Some (VList [VStr (utf8 "ab"); VStr (utf8 "problem")])))
         (ButtonPress Action.next_action_similar) answering <> None.
Proof.
  destruct (unusable_answer_raises (deployment false)
              (Answer (Some (utf8 "[..]"))
                      (Some (VList [VStr (utf8 "ab"); VStr (utf8 "problem")])))
              answering _ eq_refl eq_refl) as [_ H].
  destruct (H _ eq_refl eq_refl) as [H1 _]. exact H1.
Defined.

(** ** Buttons of the exercise flow *)

(** X14. [resolution_solve] with an exercise in the record shows its solution,
    or a fixed text when the exercise has none, under the main menu
    button, sets the mode to idle and keeps the exercise. *)
Theorem solution_is_revealed :
  forall E up s d,
    current_exercise s = Some d ->
    let press := ButtonPress Action.resolution_solve in
    let w := handle_event E up press s in
    store w = {| bot_state := Mode.idle;
                 last_asesoria_topic := last_asesoria_topic s;
                 current_exercise := Some d |}
    /\ raised E up press s = None
    /\ gateway_calls w = []
    /\ outbox w = [AnswerCallback;
                   EditMessage (shown_solution E d) (Some MAIN_MENU_KEYBOARD)].
Proof.
  intros E up s d Hd. cbv zeta.
  destruct s as [mo lt ce]. cbn in Hd. subst ce.
  split; [|split; [|split]].
  - apply handle_event_wp. unfold handler, enter, Action.resolution_solve.
    wp_all. destruct (db E); reflexivity.
  - apply raised_wp. unfold handler, enter, Action.resolution_solve.
    wp_all. reflexivity.
  - apply handle_event_wp. unfold handler, enter, Action.resolution_solve.
    wp_all. reflexivity.
  - apply handle_event_wp. unfold handler, enter, Action.resolution_solve.
    wp_all. reflexivity.
Qed.

Lemma solution_is_revealed_witness :
  outbox (handle_event (deployment true) StatusError
            (ButtonPress Action.resolution_solve) answering)
  = [AnswerCallback;
     EditMessage (utf8 "La solución es:" ++ nl ++ nl ++ utf8 "2x")
                 (Some MAIN_MENU_KEYBOARD)].
Proof.
  destruct (solution_is_revealed (deployment true) StatusError answering _ eq_refl)
    as (_ & _ & _ & H).
  exact H.
Defined.

(** X15. [resolution_solve] without an exercise raises [AttributeError] after
    the mode was set: without a database the record is left in the idle
    mode, with one it is untouched; the user gets the apology. *)
Theorem solve_without_exercise_raises :
  forall E up s,
    current_exercise s = None ->
    let press := ButtonPress Action.resolution_solve in
    let w := handle_event E up press s in
    raised E up press s = Some AttributeError
    /\ store w = (if db E then s
                  else {| bot_state := Mode.idle;
                          last_asesoria_topic := last_asesoria_topic s;
                          current_exercise := None |})
    /\ outbox w = [AnswerCallback; Reply Msg.unexpected None].
Proof.
  intros E up s Hd. cbv zeta.
  destruct s as [mo lt ce]. cbn in Hd. subst ce.
  split; [|split].
  - apply raised_wp. unfold handler, enter, Action.resolution_solve.
    wp_all. reflexivity.
  - apply handle_event_wp. unfold handler, enter, Action.resolution_solve.
    wp_all. destruct (db E); reflexivity.
  - apply handle_event_wp. unfold handler, enter, Action.resolution_solve.
    wp_all. reflexivity.
Qed.

Lemma solve_without_exercise_raises_witness :
  store (handle_event (deployment false) StatusError
           (ButtonPress Action.resolution_solve)
           (set_bot_state Mode.exercise_resolution default_state))
  = {| bot_state := Mode.idle; last_asesoria_topic := None; current_exercise := None |}.
Proof.
  destruct (solve_without_exercise_raises (deployment false) StatusError
              (set_bot_state Mode.exercise_resolution default_state) eq_refl)
    as (_ & H & _).
  exact H.
Defined.

(** X16. A press of [diff_<n>] that cannot be used, because the record has no
    exercise or because what follows the prefix is no number, raises
    before anything is changed and before the gateway is called. *)
Theorem unusable_difficulty_changes_nothing :
  forall E up s rest,
    (rest = [] \/ (Py.digits 0 rest = None /\ int_other E rest = None)
     \/ current_exercise s = None) ->
    let press := ButtonPress (Action.diff_ ++ rest) in
    let w := handle_event E up press s in
    raised E up press s <> None
    /\ store w = s
    /\ gateway_calls w = []
    /\ outbox w = [AnswerCallback; Reply Msg.unexpected None].
Proof.
  intros E up s rest H. cbv zeta.
  assert (Hskip : skipn 5 (utf8 "diff_" ++ rest) = rest) by reflexivity.
  destruct s as [mo lt ce].
  destruct H as [->|[[Hd Ho]|Hce]].
  - split; [|split; [|split]].
    + apply raised_wp. unfold handler, enter, Action.diff_. wp_all. discriminate.
    + apply handle_event_wp. unfold handler, enter, Action.diff_. wp_all. reflexivity.
    + apply handle_event_wp. unfold handler, enter, Action.diff_. wp_all. reflexivity.
    + apply handle_event_wp. unfold handler, enter, Action.diff_. wp_all. reflexivity.
  - destruct rest as [|c rest]; [discriminate Hd|].
    split; [|split; [|split]].
    + apply raised_wp. unfold handler, enter, Action.diff_. wp_all. discriminate.
    + apply handle_event_wp. unfold handler, enter, Action.diff_. wp_all. reflexivity.
    + apply handle_event_wp. unfold handler, enter, Action.diff_. wp_all. reflexivity.
    + apply handle_event_wp. unfold handler, enter, Action.diff_. wp_all. reflexivity.
  - cbn in Hce. subst ce.
    split; [|split; [|split]].
    + apply raised_wp. unfold handler, enter, Action.diff_. wp_all.
      all: discriminate.
    + apply handle_event_wp. unfold handler, enter, Action.diff_. wp_all.
      all: reflexivity.
    + apply handle_event_wp. unfold handler, enter, Action.diff_. wp_all.
      all: reflexivity.
    + apply handle_event_wp. unfold handler, enter, Action.diff_. wp_all.
      all: reflexivity.
Qed.

Lemma unusable_difficulty_changes_nothing_witness :
  store (handle_event (deployment false) StatusError
           (ButtonPress (Action.diff_ ++ utf8 "3")) default_state)
  = default_state.
Proof.
  destruct (unusable_difficulty_changes_nothing (deployment false) StatusError
              default_state (utf8 "3") (or_intror (or_intror eq_refl)))
    as (_ & H & _).
  exact H.
Defined.

Lemma topic_press_effect :
  forall E up s topic,
    let press := ButtonPress (Action.topic_ ++ topic) in
    let w := handle_event E up press s in
    store w = {| bot_state := Mode.exercise_difficulty;
                 last_asesoria_topic := last_asesoria_topic s;
                 current_exercise := Some [(VStr (utf8 "topic"), VStr topic)] |}
    /\ raised E up press s = None
    /\ gateway_calls w = []
    /\ shown_buttons w
       = map (fun z => (of_Z z, Action.diff_ ++ of_Z z)) [1; 2; 3; 4; 5]%Z.
Proof.
  intros E up s topic. cbv zeta. destruct s as [mo lt ce].
  split; [|split; [|split]].
  - apply handle_event_wp. unfold handler, enter, Action.topic_. wp_all.
    destruct (db E); reflexivity.
  - apply raised_wp. unfold handler, enter, Action.topic_. wp_all. reflexivity.
  - apply handle_event_wp. unfold handler, enter, Action.topic_. wp_all. reflexivity.
  - apply handle_event_wp. unfold handler, enter, Action.topic_. wp_all. reflexivity.
Qed.

(** X17. A press of [topic_<name>] starts an exercise on that topic from any
    record: the old exercise is replaced by one that has the topic only,
    everything after the first underscore being the topic, and the mode
    becomes the difficulty mode; the last topic of the doubts is kept. *)
Theorem topic_press_starts_exercise :
  forall E up s topic,
    let press := ButtonPress (Action.topic_ ++ topic) in
    let w := handle_event E up press s in
    store w = {| bot_state := Mode.exercise_difficulty;
                 last_asesoria_topic := last_asesoria_topic s;
                 current_exercise := Some [(VStr (utf8 "topic"), VStr topic)] |}
    /\ raised E up press s = None
    /\ gateway_calls w = []
    /\ shown_buttons w
       = map (fun z => (of_Z z, Action.diff_ ++ of_Z z)) [1; 2; 3; 4; 5]%Z.
Proof. exact topic_press_effect. Qed.

Lemma prueba_buttons E up s :
  shown_buttons (handle_event E up (Command Cmd.prueba) s)
  = map (fun topic => (topic, Action.topic_ ++ topic)) EXERCISE_TOPICS.
Proof.
  apply handle_event_wp. unfold handler, enter. wp_all. reflexivity.
Qed.

(** X18. The keyboard of [/prueba] and the handler of its buttons fit: there is
    one button for each topic of [EXERCISE_TOPICS], and pressing it, in
    whatever record, stores the label of the button as the topic. *)
Theorem topic_buttons_store_their_label :
  forall E up s,
    map fst (shown_buttons (handle_event E up (Command Cmd.prueba) s))
    = EXERCISE_TOPICS
    /\ forall label data up' s',
         In (label, data) (shown_buttons (handle_event E up (Command Cmd.prueba) s)) ->
         step E s' (ButtonPress data, up')
         = {| bot_state := Mode.exercise_difficulty;
              last_asesoria_topic := last_asesoria_topic s';
              current_exercise := Some [(VStr (utf8 "topic"), VStr label)] |}.
Proof.
  intros E up s. rewrite prueba_buttons. split.
  - rewrite map_map. cbn [fst]. apply map_id.
  - intros label data up' s' Hin.
    apply in_map_iff in Hin as (topic & Heq & _). injection Heq as <- <-.
    destruct (topic_press_effect E up' s' topic) as (H & _).
    exact H.
Qed.

Lemma topic_buttons_store_their_label_witness :
  step (deployment true) answering
       (ButtonPress (utf8 "topic_Regla de la cadena"), StatusError)
  = {| bot_state := Mode.exercise_difficulty;
       last_asesoria_topic := None;
       current_exercise := Some [(VStr (utf8 "topic"), VStr (utf8 "Regla de la cadena"))] |}.
Proof.
  destruct (topic_buttons_store_their_label (deployment true) StatusError default_state)
    as [_ H].
  apply (H (utf8 "Regla de la cadena") (utf8 "topic_Regla de la cadena")
           StatusError answering).
  vm_compute. do 4 right. left. reflexivity.
Defined.

(** X19. With an exercise that has a topic, a press of [diff_<n>] for a number
    written in digits asks the gateway, once, for an exercise of that
    topic and that difficulty, however the gateway then answers. *)
Theorem difficulty_press_asks_for_that_level :
  forall E up s d topic rest z,
    current_exercise s = Some d ->
    Py.dict_get (VStr (utf8 "topic")) d = Some topic ->
    rest <> [] ->
    Py.digits 0 rest = Some z ->
    gateway_calls (handle_event E up (ButtonPress (Action.diff_ ++ rest)) s)
    = [utf8 "Crea un ejercicio de Cálculo Diferencial sobre '" ++ format E topic
       ++ utf8 "' con dificultad " ++ of_Z z
       ++ utf8 "/5. Devuelve JSON con claves 'problem' y 'solution'. Usa texto plano."].
Proof.
  intros E up s d topic rest z Hd Htopic Hrest Hz.
  pose proof (dict_get_set_same (utf8 "difficulty") (VInt z) d) as Hdiff.
  pose proof (dict_get_set_other (utf8 "topic") (utf8 "difficulty") (VInt z) d eq_refl)
    as Htop.
  rewrite Htopic in Htop.
  destruct s as [mo lt ce]. cbn in Hd. subst ce.
  destruct rest as [|c rest]; [congruence|]. clear Hrest.
  apply handle_event_wp. unfold handler, enter, Action.diff_.
  wp_all. all: reflexivity.
Qed.

Lemma difficulty_press_asks_for_that_level_witness :
  gateway_calls (handle_event (deployment true) StatusError
                   (ButtonPress (Action.diff_ ++ utf8 "4")) chose_topic)
  = [utf8 "Crea un ejercicio de Cálculo Diferencial sobre '" ++ utf8 "Polinomios"
     ++ utf8 "' con dificultad " ++ of_Z 4
     ++ utf8 "/5. Devuelve JSON con claves 'problem' y 'solution'. Usa texto plano."].
Proof.
  exact (difficulty_press_asks_for_that_level (deployment true) StatusError
           chose_topic polinomios (VStr (utf8 "Polinomios")) (utf8 "4") 4
           eq_refl eq_refl ltac:(discriminate) eq_refl).
Defined.

(** X20. The difficulty keyboard and the handler of its buttons fit: the five
    buttons are labelled 1 to 5, and what follows the prefix in the
    callback data of each is read back as the number of its label. *)
Theorem difficulty_buttons_read_back :
  forall E up s topic label data,
    In (label, data)
       (shown_buttons (handle_event E up (ButtonPress (Action.topic_ ++ topic)) s)) ->
    exists z,
      (1 <= z <= 5)%Z
      /\ label = of_Z z
      /\ data = Action.diff_ ++ of_Z z
      /\ of_Z z <> []
      /\ Py.digits 0 (of_Z z) = Some z.
Proof.
  intros E up s topic label data Hin.
  destruct (topic_press_effect E up s topic) as (_ & _ & _ & H).
  cbv zeta in H. rewrite H in Hin. clear H.
  cbn [map In] in Hin.
  destruct Hin as [H|[H|[H|[H|[H|[]]]]]]; injection H as <- <-.
  - exists 1%Z. repeat split; try lia; discriminate.
  - exists 2%Z. repeat split; try lia; discriminate.
  - exists 3%Z. repeat split; try lia; discriminate.
  - exists 4%Z. repeat split; try lia; discriminate.
  - exists 5%Z. repeat split; try lia; discriminate.
Qed.

Lemma difficulty_buttons_read_back_witness :
  exists z, (1 <= z <= 5)%Z /\ utf8 "3" = of_Z z.
Proof.
  destruct (difficulty_buttons_read_back (deployment true) StatusError default_state
              (utf8 "Límites") (utf8 "3") (utf8 "diff_3"))
    as (z & Hz & Hl & _).
  - vm_compute. do 2 right. left. reflexivity.
  - exists z. split; [exact Hz | exact Hl].
Defined.

(** ** Commands *)

(** X21. [/asesoria], [/ejemplo], [/prueba] and [/dudas] set the mode and
    nothing else: the last topic and the exercise are kept, the gateway is
    not called, nothing is recorded and one message is sent. *)
Theorem mode_commands_keep_the_rest :
  forall E up s name mode,
    In (name, mode) command_modes ->
    let w := handle_event E up (Command name) s in
    store w = {| bot_state := mode;
                 last_asesoria_topic := last_asesoria_topic s;
                 current_exercise := current_exercise s |}
    /\ raised E up (Command name) s = None
    /\ gateway_calls w = []
    /\ interactions w = []
    /\ List.length (outbox w) = 1.
Proof.
  intros E up s name mode Hin. cbv zeta. destruct s as [mo lt ce].
  cbn in Hin.
  destruct Hin as [H|[H|[H|[H|[]]]]]; injection H as <- <-.
  all: split; [|split; [|split; [|split]]].
  all: try (apply handle_event_wp; unfold handler, enter; wp_all;
            try destruct (db E); reflexivity).
  all: apply raised_wp; unfold handler, enter; wp_all; reflexivity.
Qed.

Lemma mode_commands_keep_the_rest_witness :
  bot_state answering = Mode.exercise_answer
  /\ bot_state (store (handle_event (deployment true) StatusError
                         (Command Cmd.asesoria) answering))
     = Mode.doubt.
Proof.
  destruct (mode_commands_keep_the_rest (deployment true) StatusError answering
              Cmd.asesoria Mode.doubt) as (H & _).
  - left. reflexivity.
  - split; [reflexivity|]. rewrite H. reflexivity.
Defined.

(** X22. [/encuesta] sends the link of the survey and leaves the record alone;
    the interaction is recorded when there is a database and an
    application id, and only then. *)
Theorem survey_leaves_record_alone :
  forall E up s,
    let w := handle_event E up (Command Cmd.encuesta) s in
    store w = s
    /\ raised E up (Command Cmd.encuesta) s = None
    /\ gateway_calls w = []
    /\ interactions w = (if db E && FIREBASE_APP_ID E
                         then [utf8 "encuesta_link_sent"] else [])
    /\ List.length (outbox w) = 1.
Proof.
  intros E up s. cbv zeta.
  split; [|split; [|split; [|split]]].
  all: try (apply handle_event_wp; unfold handler, enter; wp_all;
            try destruct (db E && FIREBASE_APP_ID E); reflexivity).
  apply raised_wp; unfold handler, enter; wp_all; reflexivity.
Qed.

(** ** Text for the gateway *)

(** X23. In the notebook, deepen and example modes the text goes to the
    gateway in one call and what the gateway returns, its failure string
    included, is sent to the user first; the handler does not raise, and
    only the example mode changes, to idle. *)
Theorem gateway_answer_is_delivered :
  forall E up s body mode next,
    In (mode, next) answer_modes ->
    bot_state s = mode ->
    let w := handle_event E up (Text body) s in
    exists v,
      call_gemini_api E up false = VStr v
      /\ v <> []
      /\ store w = {| bot_state := next;
                      last_asesoria_topic := last_asesoria_topic s;
                      current_exercise := current_exercise s |}
      /\ raised E up (Text body) s = None
      /\ List.length (gateway_calls w) = 1
      /\ exists markup,
           outbox w = Typing :: map (fun t => Reply t None) (send_long_message v)
                        ++ [markup].
Proof.
  intros E up s body mode next Hin Hm. cbv zeta.
  destruct (gateway_text E up) as [v Hv]. exists v.
  split; [exact Hv|]. split.
  { unfold call_gemini_api in Hv.
    destruct (negb (GEMINI_API_KEY E)); [injection Hv as <-; discriminate|].
    destruct up as [| |[[|c t]|] l]; injection Hv as <-; discriminate. }
  destruct s as [mo lt ce]. cbn in Hm. subst mo.
  cbn in Hin.
  destruct Hin as [H|[H|[H|[]]]]; injection H as <- <-.
  all: split; [|split; [|split]].
  all: try (apply handle_event_wp; unfold handler, enter; wp_all;
            try destruct (db E); reflexivity).
  all: try (apply raised_wp; unfold handler, enter; wp_all; reflexivity).
  all: apply handle_event_wp; unfold handler, enter; wp_all;
    eexists; cbn [app]; reflexivity.
Qed.

Lemma gateway_answer_is_delivered_witness :
  exists v,
    call_gemini_api (deployment true) StatusError false = VStr v
    /\ store (handle_event (deployment true) StatusError (Text (utf8 "Límites"))
                {| bot_state := Mode.example_topic;
                   last_asesoria_topic := None;
                   current_exercise := None |})
       = default_state.
Proof.
  destruct (gateway_answer_is_delivered (deployment true) StatusError
              {| bot_state := Mode.example_topic;
                 last_asesoria_topic := None;
                 current_exercise := None |} (utf8 "Límites")
              Mode.example_topic Mode.idle)
    as (v & Hv & _ & Hs & _).
  - do 2 right. left. reflexivity.
  - reflexivity.
  - exists v. split; [exact Hv | exact Hs].
Defined.

(** ** Long messages beyond the claim *)

Module SplitFacts.
Import DeliveryFacts.

Lemma lstrip_blank t : forallb isspace t = true -> lstrip t = [].
Proof.
  induction t as [|c t IH]; [reflexivity|]. cbn [forallb lstrip].
  intros H. apply andb_true_iff in H as [-> H]. auto.
Qed.

Lemma strip_blank t : forallb isspace t = true -> strip t = [].
Proof. intros H. unfold strip. now rewrite (lstrip_blank t H). Qed.

Lemma split_blank t :
  forallb isspace t = true ->
  Forall (fun l => forallb isspace l = true) (split_nl t).
Proof.
  induction t as [|c t IH]; [repeat constructor|]. cbn [forallb split_nl].
  intros H. apply andb_true_iff in H as [Hc H]. specialize (IH H).
  destruct (c =? LF)%N; [constructor; auto|].
  destruct (split_nl t) as [|l ls]; [repeat constructor; cbn; now rewrite Hc|].
  inversion IH; subst. constructor; [|assumption]. cbn. now rewrite Hc.
Qed.

Lemma pack_blank lines cur :
  forallb isspace cur = true ->
  Forall (fun l => forallb isspace l = true) lines ->
  Forall (fun p => forallb isspace p = true) (pack lines cur).
Proof.
  revert cur. induction lines as [|line rest IH]; intros cur Hcur Hlines.
  - cbn. auto.
  - inversion Hlines; subst. cbn [pack].
    destruct (MAX_LENGTH <? len cur + len line + 1).
    + constructor; auto.
    + apply IH; [|assumption].
      rewrite !forallb_app, Hcur. cbn. assumption.
Qed.

Lemma sent_blank parts :
  Forall (fun p => forallb isspace p = true) parts -> flat_map sent_part parts = [].
Proof.
  induction 1 as [|p ps Hp _ IH]; [reflexivity|].
  cbn [flat_map]. rewrite IH. unfold sent_part. now rewrite (strip_blank p Hp).
Qed.

End SplitFacts.

(** X24. Whatever the length of the text and of its lines, no non-blank line
    is dropped and none is added: the lines of the messages sent are those
    of the text, in order, up to the white space around each line. *)
Theorem no_line_is_lost :
  forall text,
    map strip (nonblank_lines (flat_map split_nl (send_long_message text)))
    = stripped_lines text.
Proof.
  intros text. unfold send_long_message.
  destruct (len text <=? MAX_LENGTH).
  { cbn [flat_map]. now rewrite app_nil_r. }
  change (flat_map _ (parts_of text)) with (flat_map sent_part (parts_of text)).
  rewrite PackFacts.sent_parts_lines.
  destruct (PackFacts.pack_groups (split_nl text) [[]] ltac:(discriminate))
    as (groups & Hp & Hc & Hne).
  change (pack (split_nl text) (join_nl [[]])) with (parts_of text) in Hp.
  change ([[]] ++ split_nl text) with ([] :: split_nl text) in Hc.
  rewrite Hp, PackFacts.split_joined.
  - assert (H : forall ls, ls = [] :: split_nl text ->
                           map strip (nonblank_lines ls) = stripped_lines text)
      by (intros ls ->; reflexivity).
    apply H. exact Hc.
  - exact Hne.
  - apply PackFacts.Forall_of_concat.
    assert (H : forall ls, ls = [] :: split_nl text ->
                           Forall (fun l => ~ In LF l) ls).
    { intros ls ->. constructor; [auto | apply DeliveryFacts.line_without_LF]. }
    apply H. exact Hc.
Qed.

(** X25. The limit is not enforced on a single line: a text of one line that
    is longer than 4096 characters, with no white space at its ends, is
    sent whole, in one message longer than the limit. *)
Theorem long_line_is_sent_whole :
  forall text,
    MAX_LENGTH < len text ->
    ~ In LF text ->
    strip text = text ->
    send_long_message text = [text].
Proof.
  intros text Hlong Hlf Hstrip.
  rewrite (send_long_message_long text Hlong).
  unfold parts_of. rewrite (DeliveryFacts.split_nl_line text Hlf). cbn [pack].
  replace (MAX_LENGTH <? len [] + len text + 1) with true
    by (symmetry; apply Nat.ltb_lt; cbn; lia).
  cbn [flat_map]. unfold sent_part at 1. cbn [app].
  unfold sent_part. rewrite Hstrip.
  destruct text; [cbn in Hlong; lia | reflexivity].
Qed.

Lemma long_line_is_sent_whole_witness :
  send_long_message (repeat 98%N 4097) = [repeat 98%N 4097].
Proof.
  apply (long_line_is_sent_whole (repeat 98%N 4097)).
  - apply Nat.ltb_lt. vm_compute. reflexivity.
  - intros H. apply repeat_spec in H. discriminate H.
  - vm_compute. reflexivity.
Defined.

(** X26. A text longer than the limit that is white space only is not sent at
    all, where a short one is sent as it is. *)
Theorem long_blank_text_sends_nothing :
  forall text,
    MAX_LENGTH < len text ->
    forallb isspace text = true ->
    send_long_message text = [].
Proof.
  intros text Hlong Hblank.
  rewrite (send_long_message_long text Hlong).
  apply SplitFacts.sent_blank, SplitFacts.pack_blank; [reflexivity|].
  now apply SplitFacts.split_blank.
Qed.

Lemma long_blank_text_sends_nothing_witness :
  send_long_message (repeat 32%N 4097) = [].
Proof.
  apply (long_blank_text_sends_nothing (repeat 32%N 4097)).
  - apply Nat.ltb_lt. vm_compute. reflexivity.
  - vm_compute. reflexivity.
Defined.

(** ** More on the gateway and on generation *)

(** X27. An unstructured call returns a string that is not empty: the text of
    the answer as it came, or one of the four failure strings. *)
Theorem unstructured_call_returns_text :
  forall E up,
    exists v,
      call_gemini_api E up false = VStr v
      /\ v <> []
      /\ (In v failure_strings
          \/ exists loads, up = Answer (Some v) loads).
Proof.
  intros E up. unfold call_gemini_api, failure_strings.
  destruct (negb (GEMINI_API_KEY E)).
  { eexists. split; [reflexivity|]. split; [discriminate|]. left. cbn. auto. }
  destruct up as [| |[[|c t]|] l].
  - eexists. split; [reflexivity|]. split; [discriminate|]. left. cbn. auto.
  - eexists. split; [reflexivity|]. split; [discriminate|]. left. cbn. auto.
  - eexists. split; [reflexivity|]. split; [discriminate|]. left. cbn. auto.
  - eexists. split; [reflexivity|]. split; [discriminate|]. right. eauto.
  - eexists. split; [reflexivity|]. split; [discriminate|]. left. cbn. auto.
Qed.

(** X28. [next_action_similar] pressed on a record whose exercise is missing,
    or lacks the topic or the difficulty, raises before the gateway is
    called and before the record is touched. *)
Theorem another_exercise_needs_topic_and_difficulty :
  forall E up s,
    ready s = false ->
    let press := ButtonPress Action.next_action_similar in
    let w := handle_event E up press s in
    raised E up press s <> None
    /\ store w = s
    /\ gateway_calls w = []
    /\ outbox w
       = [AnswerCallback;
          EditMessage (utf8 "¡Perfecto! Generando otro ejercicio...") None;
          Reply Msg.unexpected None].
Proof.
  intros E up s Hr. cbv zeta. destruct s as [mo lt ce].
  unfold ready in Hr. cbn [current_exercise] in Hr.
  split; [|split; [|split]].
  - apply raised_wp. unfold handler, enter, Action.next_action_similar.
    wp_all. all: try discriminate.
    all: repeat match goal with
                | H : Py.dict_get _ _ = _ |- _ => rewrite H in Hr; clear H
                end; discriminate Hr.
  - apply handle_event_wp. unfold handler, enter, Action.next_action_similar.
    wp_all. all: try reflexivity.
    all: repeat match goal with
                | H : Py.dict_get _ _ = _ |- _ => rewrite H in Hr; clear H
                end; discriminate Hr.
  - apply handle_event_wp. unfold handler, enter, Action.next_action_similar.
    wp_all. all: try reflexivity.
    all: repeat match goal with
                | H : Py.dict_get _ _ = _ |- _ => rewrite H in Hr; clear H
                end; discriminate Hr.
  - apply handle_event_wp. unfold handler, enter, Action.next_action_similar.
    wp_all. all: try reflexivity.
    all: repeat match goal with
                | H : Py.dict_get _ _ = _ |- _ => rewrite H in Hr; clear H
                end; discriminate Hr.
Qed.

Lemma another_exercise_needs_topic_and_difficulty_witness :
  store (handle_event (deployment false) StatusError
           (ButtonPress Action.next_action_similar) chose_topic)
  = chose_topic.
Proof.
  destruct (another_exercise_needs_topic_and_difficulty (deployment false)
              StatusError chose_topic eq_refl) as (_ & H & _).
  exact H.
Defined.
